(** * swc-plugin-transform-import: the import rewriter of [src/index.ts]

    A shallow embedding of [transformImportPath] and of
    [PluginTransformImport.visitModuleItems], and the properties of the
    rewriter that follow from the code.

    Conventions of the model.
    - A JavaScript string is a sequence of UTF-16 code units.  The model keeps
      the code units below 256, one [ascii] each, so a [string] of Rocq is a
      JavaScript string over that range.
    - A [throw] is the [Err] branch of [result]; statements that run after
      each other are chained with the bind of that monad.
    - An object that the code only spreads and copies is a record; the fields
      the code never reads ([span], [typeOnly], ...) are carried along.
    - The table [this.opts] is an object: [key in opts] and [opts[key]] see
      its own properties and those it inherits. *)

From Stdlib Require Import Ascii String List Bool Arith Lia.
From stdpp Require Import base option gmap strings.
Import ListNotations.

Local Open Scope string_scope.
Local Open Scope list_scope.

(** ** Exceptions *)

(** [throw new Error(msg)]: the only exception the plugin builds itself.  The
    value thrown by a user supplied transform function is an [Error] too. *)
Inductive Exception : Type :=
| Error (message : string).

Inductive result (A : Type) : Type :=
| Ok (value : A)
| Err (e : Exception).
Arguments Ok {A} value.
Arguments Err {A} e.

(** Sequencing: the first [throw] ends the computation.  [x ← r; k] is stdpp's
    notation for [r ≫= (λ x, k)]. *)
#[global] Instance result_bind : MBind result :=
  fun A B (k : A -> result B) (r : result A) =>
    match r with
    | Ok a => k a
    | Err e => Err e
    end.

#[global] Instance result_ret : MRet result := fun A (a : A) => Ok a.

(** [function barf(msg) { throw new Error('swc-plugin-transform-imports: ' + msg); }] *)
Definition barf {A : Type} (msg : string) : result A :=
  Err (Error ("swc-plugin-transform-imports: " +:+ msg)).

(** ** JavaScript values that reach a source path *)

(** [transformImportPath] returns a string or, through its bare [return;],
    [undefined]; the value is stored as the [value] of a source literal. *)
Inductive JsValue : Type :=
| VUndefined
| VString (s : string).

(** [ToString]: what string concatenation, a template literal and a property
    key make of a value. *)
Definition ToString (v : JsValue) : string :=
  match v with
  | VUndefined => "undefined"
  | VString s => s
  end.

(** ** Regular expressions of [transformImportPath] *)

Definition is_lower (c : ascii) : bool :=
  ((97 <=? nat_of_ascii c) && (nat_of_ascii c <=? 122))%nat.

(** [Canonicalize] of a pattern with the [i] flag (no [u] flag): the code unit
    is upper-cased.  A code unit of 128 or more never canonicalizes to one
    below 128, so against the ASCII patterns of this file only the letters
    [a]-[z] fold; the other code units are compared as they are. *)
Definition Canonicalize (c : ascii) : ascii :=
  if is_lower c then ascii_of_nat (nat_of_ascii c - 32) else c.

Definition char_eq_i (p c : ascii) : bool :=
  Ascii.eqb (Canonicalize p) (Canonicalize c).

(** The class [\s] over code units below 256: TAB, LF, VT, FF, CR, SP and
    NBSP (U+00A0). *)
Definition is_space (c : ascii) : bool :=
  let n := nat_of_ascii c in
  (((9 <=? n) && (n <=? 13)) || (n =? 32) || (n =? 160))%nat.

(** A matcher continuation: given the rest of the input, the number of code
    units the remainder of the pattern consumes, or [None] when it fails. *)
Definition Matcher : Type := string -> option nat.

Definition m_end : Matcher := fun _ => Some 0.

(** One pattern character, compared under the [i] flag. *)
Definition m_char (p : ascii) (k : Matcher) : Matcher :=
  fun s =>
    match s with
    | String c rest => if char_eq_i p c then S <$> k rest else None
    | EmptyString => None
    end.

(** [\s?]: greedy, one white space code unit first, none on backtracking. *)
Definition m_opt_space (k : Matcher) : Matcher :=
  fun s =>
    match s with
    | String c rest =>
        if is_space c then
          match k rest with
          | Some n => Some (S n)
          | None => k s
          end
        else k s
    | EmptyString => k s
    end.

Fixpoint m_chars (p : string) (k : Matcher) : Matcher :=
  match p with
  | EmptyString => k
  | String c p' => m_char c (m_chars p' k)
  end.

(** [/\$\{\s?member\s?\}/i] anchored at the head of the input: the length of
    the match. *)
Definition placeholder_at : Matcher :=
  m_chars "${" (m_opt_space (m_chars "member" (m_opt_space (m_chars "}" m_end)))).

(** [/\.js$/i.test(s)]: the input ends in [.js], letters in either case. *)
Fixpoint ends_with_js (s : string) : bool :=
  match s with
  | EmptyString => false
  | String c rest =>
      match m_chars ".js" m_end s, rest with
      | Some _, String _ (String _ EmptyString) => true
      | _, _ => ends_with_js rest
      end
  end.

(** [/[\$\{\}]/.test(s)]: the input holds a dollar sign or a brace. *)
Fixpoint has_dollar_or_brace (s : string) : bool :=
  match s with
  | EmptyString => false
  | String c rest =>
      Ascii.eqb c "$" || Ascii.eqb c "{" || Ascii.eqb c "}" || has_dollar_or_brace rest
  end.

(** ** [String.prototype.replace] with a global pattern *)

Fixpoint take (n : nat) (s : string) : string :=
  match n, s with
  | S n', String c rest => String c (take n' rest)
  | _, _ => EmptyString
  end.

Fixpoint drop (n : nat) (s : string) : string :=
  match n, s with
  | S n', String _ rest => drop n' rest
  | _, _ => s
  end.

(** [GetSubstitution] for a pattern without capture groups: in the replacement
    text [$$] stands for a dollar sign, [$&] for the match, [$`] for the input
    before the match and [$'] for the input after it; [$] before anything else
    (a digit included, there being no group to refer to) is itself. *)
Fixpoint GetSubstitution (matched before after replacement : string) : string :=
  match replacement with
  | String "$" (String "$" rest) =>
      "$" +:+ GetSubstitution matched before after rest
  | String "$" (String "&" rest) =>
      matched +:+ GetSubstitution matched before after rest
  | String "$" (String "`" rest) =>
      before +:+ GetSubstitution matched before after rest
  | String "$" (String "'" rest) =>
      after +:+ GetSubstitution matched before after rest
  | String c rest => String c (GetSubstitution matched before after rest)
  | EmptyString => EmptyString
  end.

(** The replace loop.  [before] is the input already passed, [skip] the code
    units of the current match still to pass over.  A match is looked for at
    every position outside a match, left to right; every match is replaced by
    its substitution and the code units between matches are copied.  (The
    pattern of this file matches no empty string; an empty match would insert
    its substitution and copy the code unit after it.) *)
Fixpoint replace_loop (re : Matcher) (replacement before s : string) (skip : nat) : string :=
  match s with
  | EmptyString => EmptyString
  | String c rest =>
      match skip with
      | S skip' => replace_loop re replacement (before +:+ String c "") rest skip'
      | O =>
          match re s with
          | Some (S n) =>
              GetSubstitution (take (S n) s) before (drop (S n) s) replacement
                +:+ replace_loop re replacement (before +:+ String c "") rest n
          | Some O =>
              GetSubstitution "" before s replacement
                +:+ String c (replace_loop re replacement (before +:+ String c "") rest 0)
          | None =>
              String c (replace_loop re replacement (before +:+ String c "") rest 0)
          end
      end
  end.

(** [s.replace(/\$\{\s?member\s?\}/ig, importName)] *)
Definition replace_member (s importName : string) : string :=
  replace_loop placeholder_at importName "" s 0.

(** JavaScript truthiness of a string: every string but the empty one. *)
Definition truthy (s : string) : bool := negb (String.eqb s "").

(** ** The syntax tree of the host parser *)

Record Span : Type := { span_start : nat; span_end : nat; span_ctxt : nat }.

Record Identifier : Type :=
  { id_span : Span; id_value : string; id_optional : bool }.

Inductive SpecifierType : Type :=
| ImportSpecifier
| ImportDefaultSpecifier
| ImportNamespaceSpecifier.

(** One specifier object.  [imported] is [null] (here [None]) for a named
    specifier written without [as], and absent on the other two kinds. *)
Record Specifier : Type :=
  { sp_type : SpecifierType;
    sp_span : Span;
    local : Identifier;
    imported : option Identifier;
    isTypeOnly : bool }.

Record StringLiteral : Type := { str_span : Span; str_value : JsValue }.

Record ImportDeclaration : Type :=
  { decl_span : Span;
    specifiers : list Specifier;
    source : StringLiteral;
    typeOnly : bool }.

(** The kinds of top-level statement other than an import declaration. *)
Inductive StatementType : Type :=
| ExportDeclaration
| ExportNamedDeclaration
| ExportDefaultDeclaration
| ExportAllDeclaration
| VariableDeclaration
| FunctionDeclaration
| ClassDeclaration
| ExpressionStatement.

(** A module item: [type === 'ImportDeclaration'] holds of [Import] only. *)
Inductive ModuleItem : Type :=
| Import (node : ImportDeclaration)
| Statement (type : StatementType) (span : Span).

(** ** Options *)

(** The [transform] option: a template (or the path of a [.js] file), or a
    function from the member name to a path, which may throw. *)
Inductive TransformOption : Type :=
| TString (s : string)
| TFunction (f : string -> result JsValue).

(** A rule as [visitModuleItems] destructures it.  [transform] is [None] when
    the property is [undefined]; an [undefined] flag is [false], the code
    testing flags for truthiness only. *)
Record SubOpts : Type :=
  { transform : option TransformOption;
    preventFullImport : bool;
    skipDefaultConversion : bool;
    style : bool }.

(** A rule as the caller writes it: every property may be left out. *)
Record RawSubOpts : Type :=
  { raw_transform : option TransformOption;
    raw_preventFullImport : option bool;
    raw_skipDefaultConversion : option bool;
    raw_style : option bool }.

(** [{ ...DEFAULT_OPTS, ...opts[key] }] *)
Definition with_defaults (raw : RawSubOpts) : SubOpts :=
  {| transform := raw_transform raw;
     preventFullImport := default false (raw_preventFullImport raw);
     skipDefaultConversion := default false (raw_skipDefaultConversion raw);
     style := default false (raw_style raw) |}.

(** The object [this.opts]: its own properties and its prototype.  It is
    created as [{}], so its prototype is [Object.prototype] ([proto = None])
    unless the constructor assigns to the key [__proto__], which stores no
    property and makes the assigned rule object the prototype instead (that
    object inherits from [Object.prototype] in turn). *)
Record Opts : Type :=
  { own : gmap string SubOpts;
    proto : option SubOpts }.

(** The constructor: every own key of the argument is assigned in turn. *)
Definition PluginTransformImport (opts : gmap string RawSubOpts) : Opts :=
  {| own := with_defaults <$> delete "__proto__" opts;
     proto := with_defaults <$> opts !! "__proto__" |}.

(** The property names of [Object.prototype]. *)
Definition ObjectPrototype : list string :=
  [ "constructor"; "__defineGetter__"; "__defineSetter__"; "hasOwnProperty";
    "__lookupGetter__"; "__lookupSetter__"; "isPrototypeOf";
    "propertyIsEnumerable"; "toString"; "valueOf"; "__proto__";
    "toLocaleString" ].

(** The property names of a rule object built by the constructor. *)
Definition rule_keys (r : SubOpts) : list string :=
  [ "preventFullImport"; "skipDefaultConversion"; "style" ]
    ++ match transform r with
       | Some _ => [ "transform" ]
       | None => []
       end.

Definition mem (key : string) (l : list string) : bool :=
  existsb (String.eqb key) l.

(** [key in opts]: an own property, or one found along the prototype chain. *)
Definition has_property (opts : Opts) (key : string) : bool :=
  bool_decide (is_Some (own opts !! key))
  || from_option (fun r => mem key (rule_keys r)) false (proto opts)
  || mem key ObjectPrototype.

(** A rule destructured from a value that has none of the four properties. *)
Definition undefined_rule : SubOpts :=
  {| transform := None;
     preventFullImport := false;
     skipDefaultConversion := false;
     style := false |}.

(** [const { preventFullImport, skipDefaultConversion, transform, style } =
    opts[key]] for a key that passed the [in] test.  An own property is a rule
    object.  The inherited [__proto__] reads the prototype: the rule object
    that the constructor put there, or [Object.prototype].  Any other
    inherited property is a function, a boolean or a string.  Of these values
    only a rule object has any of the four properties. *)
Definition get_rule (opts : Opts) (key : string) : SubOpts :=
  match own opts !! key with
  | Some rule => rule
  | None =>
      if String.eqb key "__proto__" then default undefined_rule (proto opts)
      else undefined_rule
  end.

(** ** The constants of the loop body *)

(** [type === 'ImportSpecifier' && specifier?.imported?.value], as a truth
    value. *)
Definition doesImportedValueExist (specifier : Specifier) : bool :=
  match sp_type specifier with
  | ImportSpecifier => from_option truthy false (id_value <$> imported specifier)
  | _ => false
  end.

(** [doesImportedValueExist ? specifier?.imported?.value : local.value] *)
Definition actualImportVariable (specifier : Specifier) : string :=
  if doesImportedValueExist specifier
  then default "" (id_value <$> imported specifier)
  else id_value (local specifier).

(** The second argument of the call: [actualImportVariable || ''] *)
Definition memberName (specifier : Specifier) : string :=
  if truthy (actualImportVariable specifier) then actualImportVariable specifier
  else "".

(** [{ ...specifier, ...(shouldSkipDefaultConversion ? {} :
      { imported: null, type: "ImportDefaultSpecifier" }) }] *)
Definition newSpecifier (rule : SubOpts) (specifier : Specifier) : Specifier :=
  let shouldSkipDefaultConversion :=
    skipDefaultConversion rule && doesImportedValueExist specifier in
  if shouldSkipDefaultConversion then specifier
  else {| sp_type := ImportDefaultSpecifier;
          sp_span := sp_span specifier;
          local := local specifier;
          imported := None;
          isTypeOnly := isTypeOnly specifier |}.

(** [{ ...node, source: { ...source, value }, specifiers: [newSpecifier],
      type: "ImportDeclaration" }] *)
Definition copyNode (node : ImportDeclaration) (specifier : Specifier)
    (value : JsValue) : ImportDeclaration :=
  {| decl_span := decl_span node;
     specifiers := [specifier];
     source := {| str_span := str_span (source node); str_value := value |};
     typeOnly := typeOnly node |}.

(** [{ ...node, source: { ...source, value: `${value}/style` },
      specifiers: [], type: "ImportDeclaration" }] *)
Definition styleNode (node : ImportDeclaration) (value : JsValue)
    : ImportDeclaration :=
  {| decl_span := decl_span node;
     specifiers := [];
     source := {| str_span := str_span (source node);
                  str_value := VString (ToString value +:+ "/style") |};
     typeOnly := typeOnly node |}.

(** [{ ...node, specifiers: [specifier] }] *)
Definition nameImportsFilteredNode (node : ImportDeclaration)
    (specifier : Specifier) : ImportDeclaration :=
  {| decl_span := decl_span node;
     specifiers := [specifier];
     source := source node;
     typeOnly := typeOnly node |}.

(** [/\.js$/i.test(s) && !/[\$\{\}]/.test(s)] *)
Definition isJsFile (s : string) : bool :=
  ends_with_js s && negb (has_dollar_or_brace s).

(** ** The path resolver and the rewriter *)

(** What [require] returns: [typeof] tells a function from anything else. *)
Inductive Export : Type :=
| ExportFunction (f : string -> result JsValue)
| ExportOther.

Section Rewriter.

(** The module loader of the host, which may throw. *)
Variable require : string -> result Export.

(** [function transformImportPath(transformOption, importName)].  A function
    is truthy and is its own [transformFn]; a string is tested for emptiness
    and then against the two patterns. *)
Definition transformImportPath (transformOption : option TransformOption)
    (importName : string) : result JsValue :=
  match transformOption with
  | None => Ok VUndefined
  | Some (TFunction transformFn) => transformFn importName
  | Some (TString s) =>
      if negb (truthy s) then Ok VUndefined
      else if isJsFile s then
        transformFn ←
          match require s with
          | Ok exported => Ok exported
          | Err _ => barf ("failed to require transform file " +:+ s)
          end;
        match transformFn with
        | ExportFunction f => f importName
        | ExportOther =>
            barf ("expected transform function to be exported from " +:+ s)
        end
      else Ok (VString (replace_member s importName))
  end.

(** The body of the loop over the specifiers of a matching declaration:
    [transformedNodes] is the output so far, [push] appends to it.  A
    namespace specifier falls through both tests of the [if]. *)
Definition visitSpecifier (node : ImportDeclaration) (rule : SubOpts)
    (specifier : Specifier) (transformedNodes : list ModuleItem)
    : result (list ModuleItem) :=
  match sp_type specifier with
  | ImportSpecifier =>
      value ← transformImportPath (transform rule) (memberName specifier);
      let transformedNodes :=
        transformedNodes ++ [Import (copyNode node (newSpecifier rule specifier) value)] in
      if style rule then Ok (transformedNodes ++ [Import (styleNode node value)])
      else Ok transformedNodes
  | ImportDefaultSpecifier =>
      Ok (transformedNodes ++ [Import (nameImportsFilteredNode node specifier)])
  | ImportNamespaceSpecifier => Ok transformedNodes
  end.

(** [for (const specifier of specifiers) { ... }] *)
Fixpoint visitSpecifiers (node : ImportDeclaration) (rule : SubOpts)
    (todo : list Specifier) (transformedNodes : list ModuleItem)
    : result (list ModuleItem) :=
  match todo with
  | [] => Ok transformedNodes
  | specifier :: todo' =>
      transformedNodes ← visitSpecifier node rule specifier transformedNodes;
      visitSpecifiers node rule todo' transformedNodes
  end.

Definition is_default (specifier : Specifier) : bool :=
  match sp_type specifier with
  | ImportDefaultSpecifier => true
  | _ => false
  end.

(** The body of the loop over the nodes. *)
Definition visitNode (opts : Opts) (node : ModuleItem)
    (transformedNodes : list ModuleItem) : result (list ModuleItem) :=
  match node with
  | Statement _ _ => Ok (transformedNodes ++ [node])
  | Import decl =>
      let key := ToString (str_value (source decl)) in
      let isValidTranformCandidate := has_property opts key in
      if negb isValidTranformCandidate then Ok (transformedNodes ++ [node])
      else
        let rule := get_rule opts key in
        let isDefaultImportExist := existsb is_default (specifiers decl) in
        if isDefaultImportExist && preventFullImport rule then
          barf ("Import of entire module " +:+ key
                  +:+ " not allowed due to preventFullImport setting")
        else visitSpecifiers decl rule (specifiers decl) transformedNodes
  end.

(** [for (const node of nodes) { ... }] *)
Fixpoint visitNodes (opts : Opts) (nodes : list ModuleItem)
    (transformedNodes : list ModuleItem) : result (list ModuleItem) :=
  match nodes with
  | [] => Ok transformedNodes
  | node :: nodes' =>
      transformedNodes ← visitNode opts node transformedNodes;
      visitNodes opts nodes' transformedNodes
  end.

(** [visitModuleItems(nodes: ModuleItem[]): ModuleItem[]] *)
Definition visitModuleItems (opts : Opts) (nodes : list ModuleItem)
    : result (list ModuleItem) :=
  if (size (own opts) =? 0)%nat then Ok nodes
  else visitNodes opts nodes [].

End Rewriter.

(** ** Syntax trees of the examples *)

Definition span0 : Span := {| span_start := 0; span_end := 0; span_ctxt := 0 |}.

Definition ident (name : string) : Identifier :=
  {| id_span := span0; id_value := name; id_optional := false |}.

(** [{ name }] inside an import clause. *)
Definition named (name : string) : Specifier :=
  {| sp_type := ImportSpecifier; sp_span := span0; local := ident name;
     imported := None; isTypeOnly := false |}.

(** [{ name as alias }] *)
Definition aliased (name alias : string) : Specifier :=
  {| sp_type := ImportSpecifier; sp_span := span0; local := ident alias;
     imported := Some (ident name); isTypeOnly := false |}.

(** [import name from ...] *)
Definition default_import (name : string) : Specifier :=
  {| sp_type := ImportDefaultSpecifier; sp_span := span0; local := ident name;
     imported := None; isTypeOnly := false |}.

(** [import * as name from ...] *)
Definition namespace_import (name : string) : Specifier :=
  {| sp_type := ImportNamespaceSpecifier; sp_span := span0; local := ident name;
     imported := None; isTypeOnly := false |}.

(** [import <specifiers> from '<path>';] *)
Definition import_from (specs : list Specifier) (path : string) : ModuleItem :=
  Import {| decl_span := span0; specifiers := specs;
            source := {| str_span := span0; str_value := VString path |};
            typeOnly := false |}.

(** [{ transform: template }] with further properties set by the caller. *)
Definition rule_of (template : string) : RawSubOpts :=
  {| raw_transform := Some (TString template);
     raw_preventFullImport := None;
     raw_skipDefaultConversion := None;
     raw_style := None |}.

(** A loader that finds no file. *)
Definition no_require (path : string) : result Export :=
  Err (Error ("Cannot find module " +:+ path)).

(** [{ transform: template, skipDefaultConversion: true }] and the like. *)
Definition with_skipDefaultConversion (raw : RawSubOpts) : RawSubOpts :=
  {| raw_transform := raw_transform raw;
     raw_preventFullImport := raw_preventFullImport raw;
     raw_skipDefaultConversion := Some true;
     raw_style := raw_style raw |}.

Definition with_preventFullImport (flag : bool) (raw : RawSubOpts) : RawSubOpts :=
  {| raw_transform := raw_transform raw;
     raw_preventFullImport := Some flag;
     raw_skipDefaultConversion := raw_skipDefaultConversion raw;
     raw_style := raw_style raw |}.

Definition with_style (raw : RawSubOpts) : RawSubOpts :=
  {| raw_transform := raw_transform raw;
     raw_preventFullImport := raw_preventFullImport raw;
     raw_skipDefaultConversion := raw_skipDefaultConversion raw;
     raw_style := Some true |}.

(** ** The substitution in the words of the specification *)

(** Two strings that differ in the case of their letters at most. *)
Fixpoint eq_i (pattern word : string) : bool :=
  match pattern, word with
  | EmptyString, EmptyString => true
  | String p pattern', String c word' => char_eq_i p c && eq_i pattern' word'
  | _, _ => false
  end.

(** Nothing, or one white space code unit. *)
Definition optional_space (w : string) : Prop :=
  w = "" \/ exists c, is_space c = true /\ w = String c "".

(** A placeholder token: [${], at most one white space, [member] in any
    letter case, at most one white space, [}]. *)
Definition is_placeholder (token : string) : Prop :=
  exists space1 word space2,
    optional_space space1 /\ eq_i "member" word = true /\ optional_space space2
    /\ token = "${" +:+ space1 +:+ word +:+ space2 +:+ "}".

(** [Substituted member template out]: [out] is [template] with every
    placeholder token replaced by [member], read from left to right, and
    every other code unit kept. *)
Inductive Substituted (member : string) : string -> string -> Prop :=
| Substituted_end : Substituted member "" ""
| Substituted_token token rest out :
    is_placeholder token ->
    Substituted member rest out ->
    Substituted member (token +:+ rest) (member +:+ out)
| Substituted_copy c rest out :
    (forall token tail, is_placeholder token -> String c rest <> token +:+ tail) ->
    Substituted member rest out ->
    Substituted member (String c rest) (String c out).

Fixpoint has_dollar (s : string) : bool :=
  match s with
  | EmptyString => false
  | String c rest => Ascii.eqb c "$" || has_dollar rest
  end.

(** The second code unit of a pattern of a replacement text: [$$], [$&],
    [$`] and [$']. *)
Definition is_pattern_char (d : ascii) : bool :=
  Ascii.eqb d "$" || Ascii.eqb d "&" || Ascii.eqb d "`" || Ascii.eqb d "'".

(** The string holds one of the four patterns. *)
Fixpoint has_dollar_pattern (s : string) : bool :=
  match s with
  | EmptyString => false
  | String c rest =>
      Ascii.eqb c "$"
        && match rest with
           | String d _ => is_pattern_char d
           | EmptyString => false
           end
      || has_dollar_pattern rest
  end.

(** The two exceptions that [transformImportPath] raises about a transform
    file, each naming the file. *)
Definition TransformFunctionError (reference : string) (e : Exception) : Prop :=
  e = Error ("swc-plugin-transform-imports: failed to require transform file "
               +:+ reference)
  \/ e = Error ("swc-plugin-transform-imports: expected transform function to be exported from "
                +:+ reference).

(** The exception of the [preventFullImport] test, naming the module. *)
Definition FullImportNotAllowed (module : string) : Exception :=
  Error ("swc-plugin-transform-imports: Import of entire module " +:+ module
           +:+ " not allowed due to preventFullImport setting").

(** ** Definitions of the proofs and of the examples *)

(** [recognises k L]: the matcher [k] succeeds exactly on the inputs that
    start with a token of the language [L], and reports the length of one. *)
Definition recognises (k : Matcher) (L : string -> Prop) : Prop :=
  forall s,
    match k s with
    | Some n => exists token tail,
        s = token +:+ tail /\ String.length token = n /\ L token
    | None => forall token tail, L token -> s <> token +:+ tail
    end.

(** A loader that knows one file, [./upper.js], exporting a function. *)
Definition one_file_require (path : string) : result Export :=
  if String.eqb path "./upper.js"
  then Ok (ExportFunction (fun member => Ok (VString ("lib/" +:+ member))))
  else no_require path.

Definition react_bootstrap (prevent : option bool) : RawSubOpts :=
  {| raw_transform := Some (TString "react-bootstrap/lib/${member}");
     raw_preventFullImport := prevent;
     raw_skipDefaultConversion := None;
     raw_style := None |}.

(** [String.prototype.toLowerCase] on the letters [A]-[Z]. *)
Fixpoint toLowerCase (s : string) : string :=
  match s with
  | EmptyString => EmptyString
  | String c rest =>
      let n := nat_of_ascii c in
      String (if ((65 <=? n) && (n <=? 90))%nat then ascii_of_nat (n + 32) else c)
             (toLowerCase rest)
  end.

(** ** Views of the input and of the output *)

Definition is_statement (item : ModuleItem) : bool :=
  match item with
  | Statement _ _ => true
  | Import _ => false
  end.

Definition is_named (specifier : Specifier) : bool :=
  match sp_type specifier with
  | ImportSpecifier => true
  | _ => false
  end.

Definition is_namespace (specifier : Specifier) : bool :=
  match sp_type specifier with
  | ImportNamespaceSpecifier => true
  | _ => false
  end.

(** The names an item binds in the module, in the order of its specifiers. *)
Definition local_names (item : ModuleItem) : list string :=
  match item with
  | Import decl => map (fun specifier => id_value (local specifier)) (specifiers decl)
  | Statement _ _ => []
  end.

(** A transform that is no function and no path of a [.js] file: a template,
    the empty string, or nothing. *)
Definition literal (transformOption : option TransformOption) : bool :=
  match transformOption with
  | None => true
  | Some (TString s) => negb (isJsFile s)
  | Some (TFunction _) => false
  end.

(** What [transformImportPath] returns for a literal transform. *)
Definition literal_value (transformOption : option TransformOption)
    (importName : string) : JsValue :=
  match transformOption with
  | Some (TString s) =>
      if truthy s then VString (replace_member s importName) else VUndefined
  | _ => VUndefined
  end.

(** The statements that one specifier of a declaration stands for under a
    rule with a literal transform. *)
Definition statements_of (node : ImportDeclaration) (rule : SubOpts)
    (specifier : Specifier) : list ModuleItem :=
  match sp_type specifier with
  | ImportSpecifier =>
      let value := literal_value (transform rule) (memberName specifier) in
      Import (copyNode node (newSpecifier rule specifier) value)
        :: (if style rule then [ Import (styleNode node value) ] else [])
  | ImportDefaultSpecifier => [ Import (nameImportsFilteredNode node specifier) ]
  | ImportNamespaceSpecifier => []
  end.

(** The name a named specifier imports: the imported name where the
    specifier has one, its local name otherwise. *)
Definition imported_or_local (specifier : Specifier) : string :=
  match imported specifier with
  | Some name => id_value name
  | None => id_value (local specifier)
  end.

(** A rule as written with every flag spelled out. *)
Definition spelled_out (raw : RawSubOpts) : RawSubOpts :=
  {| raw_transform := raw_transform raw;
     raw_preventFullImport := Some (default false (raw_preventFullImport raw));
     raw_skipDefaultConversion := Some (default false (raw_skipDefaultConversion raw));
     raw_style := Some (default false (raw_style raw)) |}.

(** A rule with [skipDefaultConversion] switched off. *)
Definition without_skip (rule : SubOpts) : SubOpts :=
  {| transform := transform rule;
     preventFullImport := preventFullImport rule;
     skipDefaultConversion := false;
     style := style rule |}.

(** A table with [skipDefaultConversion] switched off in every rule. *)
Definition all_without_skip (opts : Opts) : Opts :=
  {| own := without_skip <$> own opts; proto := without_skip <$> proto opts |}.

(** The member name written for use as a replacement text: every dollar sign
    doubled. *)
Fixpoint escape_dollars (s : string) : string :=
  match s with
  | EmptyString => EmptyString
  | String c rest =>
      if Ascii.eqb c "$" then String "$" (String "$" (escape_dollars rest))
      else String c (escape_dollars rest)
  end.

(** The table of the examples: a rule for [lib] that sets [style] and
    refuses full imports. *)
Definition lib_table : Opts :=
  PluginTransformImport
    {[ "lib" := with_style (with_preventFullImport true (rule_of "lib/${member}")) ]}.

Definition lib_rule : SubOpts :=
  with_defaults (with_style (with_preventFullImport true (rule_of "lib/${member}"))).

Definition lib_declaration : ImportDeclaration :=
  {| decl_span := span0;
     specifiers := [ named "A"; aliased "B" "C" ];
     source := {| str_span := span0; str_value := VString "lib" |};
     typeOnly := false |}.

Definition lib_output : list ModuleItem :=
  [ import_from [ default_import "A" ] "lib/A"; import_from [] "lib/A/style";
    import_from [ default_import "C" ] "lib/B"; import_from [] "lib/B/style" ].

(** * Properties *)

(** ** The error monad *)

Lemma bind_Ok {A B : Type} (a : A) (k : A -> result B) : Ok a ≫= k = k a.
Proof. reflexivity. Qed.

Lemma bind_Err {A B : Type} (e : Exception) (k : A -> result B) :
  Err e ≫= k = Err e.
Proof. reflexivity. Qed.

Lemma bind_Ok_inv {A B : Type} (r : result A) (k : A -> result B) (b : B) :
  r ≫= k = Ok b -> exists a, r = Ok a /\ k a = Ok b.
Proof. destruct r as [a|e]; [eauto | discriminate]. Qed.

Lemma bind_ext {A B : Type} (r : result A) (k h : A -> result B) :
  (forall a, k a = h a) -> r ≫= k = r ≫= h.
Proof. intros E. destruct r; simpl; auto. Qed.

(** ** The loops append to the output and never look at it *)

Section Loops.

Variable require : string -> result Export.

Lemma visitSpecifier_acc node rule specifier transformedNodes :
  visitSpecifier require node rule specifier transformedNodes =
  out ← visitSpecifier require node rule specifier []; Ok (transformedNodes ++ out).
Proof.
  unfold visitSpecifier.
  destruct (sp_type specifier); simpl.
  - destruct (transformImportPath require (transform rule) (memberName specifier));
      simpl; [|reflexivity].
    destruct (style rule); simpl; [|reflexivity].
    now rewrite <- app_assoc.
  - reflexivity.
  - now rewrite app_nil_r.
Qed.

Lemma visitSpecifiers_acc node rule todo transformedNodes :
  visitSpecifiers require node rule todo transformedNodes =
  out ← visitSpecifiers require node rule todo []; Ok (transformedNodes ++ out).
Proof.
  revert transformedNodes.
  induction todo as [|specifier todo IH]; intros transformedNodes; simpl.
  - now rewrite app_nil_r.
  - rewrite visitSpecifier_acc.
    destruct (visitSpecifier require node rule specifier []) as [out|e];
      simpl; [|reflexivity].
    rewrite (IH (transformedNodes ++ out)), (IH out).
    destruct (visitSpecifiers require node rule todo []); simpl; [|reflexivity].
    now rewrite app_assoc.
Qed.

Lemma visitSpecifiers_app node rule todo1 todo2 transformedNodes :
  visitSpecifiers require node rule (todo1 ++ todo2) transformedNodes =
  out ← visitSpecifiers require node rule todo1 transformedNodes;
  visitSpecifiers require node rule todo2 out.
Proof.
  revert transformedNodes.
  induction todo1 as [|specifier todo1 IH]; intros transformedNodes; simpl.
  - reflexivity.
  - destruct (visitSpecifier require node rule specifier transformedNodes);
      simpl; auto.
Qed.

Lemma visitNode_acc opts node transformedNodes :
  visitNode require opts node transformedNodes =
  out ← visitNode require opts node []; Ok (transformedNodes ++ out).
Proof.
  unfold visitNode.
  destruct node as [decl|type span]; [|reflexivity].
  destruct (has_property opts _); simpl; [|reflexivity].
  destruct (_ && _); [reflexivity|].
  apply visitSpecifiers_acc.
Qed.

Lemma visitNodes_acc opts nodes transformedNodes :
  visitNodes require opts nodes transformedNodes =
  out ← visitNodes require opts nodes []; Ok (transformedNodes ++ out).
Proof.
  revert transformedNodes.
  induction nodes as [|node nodes IH]; intros transformedNodes; simpl.
  - now rewrite app_nil_r.
  - rewrite visitNode_acc.
    destruct (visitNode require opts node []) as [out|e]; simpl; [|reflexivity].
    rewrite (IH (transformedNodes ++ out)), (IH out).
    destruct (visitNodes require opts nodes []); simpl; [|reflexivity].
    now rewrite app_assoc.
Qed.

Lemma visitNodes_app opts nodes1 nodes2 transformedNodes :
  visitNodes require opts (nodes1 ++ nodes2) transformedNodes =
  out ← visitNodes require opts nodes1 transformedNodes;
  visitNodes require opts nodes2 out.
Proof.
  revert transformedNodes.
  induction nodes1 as [|node nodes1 IH]; intros transformedNodes; simpl.
  - reflexivity.
  - destruct (visitNode require opts node transformedNodes); simpl; auto.
Qed.

(** A table with a rule in it does not take the early [return nodes]. *)
Lemma configured_not_empty (opts : Opts) key rule :
  own opts !! key = Some rule -> (size (own opts) =? 0)%nat = false.
Proof.
  intros Hkey. apply Nat.eqb_neq. intros Hsize.
  apply map_size_empty_iff in Hsize. rewrite Hsize in Hkey.
  now rewrite lookup_empty in Hkey.
Qed.

Lemma configured_has_property (opts : Opts) key rule :
  own opts !! key = Some rule -> has_property opts key = true.
Proof.
  intros Hkey. unfold has_property.
  rewrite bool_decide_eq_true_2; [reflexivity | eauto].
Qed.

Lemma configured_get_rule (opts : Opts) key rule :
  own opts !! key = Some rule -> get_rule opts key = rule.
Proof. intros Hkey. unfold get_rule. now rewrite Hkey. Qed.

(** What the loop does with a declaration of a configured module. *)
Lemma visitNode_configured opts decl key rule transformedNodes :
  str_value (source decl) = VString key ->
  own opts !! key = Some rule ->
  visitNode require opts (Import decl) transformedNodes =
  if existsb is_default (specifiers decl) && preventFullImport rule then
    barf ("Import of entire module " +:+ key
            +:+ " not allowed due to preventFullImport setting")
  else visitSpecifiers require decl rule (specifiers decl) transformedNodes.
Proof.
  intros Hsrc Hkey. unfold visitNode. rewrite Hsrc. simpl.
  rewrite (configured_has_property _ _ _ Hkey). simpl.
  now rewrite (configured_get_rule _ _ _ Hkey).
Qed.

End Loops.

(** ** The rewriter on the statement sequence *)

(** C5.  With an empty configuration table the rewriter is the identity: the
    statement sequence is returned as it is. *)
Theorem empty_table_identity (require : string -> result Export)
    (nodes : list ModuleItem) :
  visitModuleItems require (PluginTransformImport ∅) nodes = Ok nodes.
Proof. reflexivity. Qed.

(** C2.  With the rule [{ transform: "lib/${member}" }] for [lib], the
    statement [import { A, B as C } from 'lib';] becomes the two statements
    [import A from 'lib/A'; import C from 'lib/B';] in that order: the path
    is built from the imported name, the default specifier binds the local
    name. *)
Theorem named_import_splitting (require : string -> result Export) :
  visitModuleItems require
    (PluginTransformImport {[ "lib" := rule_of "lib/${member}" ]})
    [ import_from [ named "A"; aliased "B" "C" ] "lib" ]
  = Ok [ import_from [ default_import "A" ] "lib/A";
         import_from [ default_import "C" ] "lib/B" ].
Proof. reflexivity. Qed.

(** The output that C3 names is not the output of the code: with
    [skipDefaultConversion: true] the specifier [A], written without [as],
    does not stay a named specifier. *)
Lemma skipDefaultConversion_plain_name_not_kept :
  visitModuleItems no_require
    (PluginTransformImport
       {[ "lib" := with_skipDefaultConversion (rule_of "lib/${member}") ]})
    [ import_from [ named "A"; aliased "B" "C" ] "lib" ]
  <> Ok [ import_from [ named "A" ] "lib/A";
          import_from [ aliased "B" "C" ] "lib/B" ].
Proof. vm_compute. discriminate. Qed.

(** C3, at the input where the code departs from the claim.  With
    [{ transform: "lib/${member}", skipDefaultConversion: true }] the
    statement [import { A, B as C } from 'lib';] becomes
    [import A from 'lib/A'; import { B as C } from 'lib/B';]: the specifier
    with an alias is kept as a named specifier under the resolved path, but
    the one without an alias is converted to a default specifier, the flag
    notwithstanding. *)
Theorem skipDefaultConversion_keeps_aliased (require : string -> result Export) :
  visitModuleItems require
    (PluginTransformImport
       {[ "lib" := with_skipDefaultConversion (rule_of "lib/${member}") ]})
    [ import_from [ named "A"; aliased "B" "C" ] "lib" ]
  = Ok [ import_from [ default_import "A" ] "lib/A";
         import_from [ aliased "B" "C" ] "lib/B" ].
Proof. reflexivity. Qed.

(** C1, at the input where the code departs from the claim.  With
    [preventFullImport: true] for [lib], the statement
    [import * as NS from 'lib';] raises nothing: the rewriter returns, and
    its output is empty. *)
Theorem namespace_import_not_rejected (require : string -> result Export) :
  visitModuleItems require
    (PluginTransformImport
       {[ "lib" := with_preventFullImport true (rule_of "lib/${member}") ]})
    [ import_from [ namespace_import "NS" ] "lib" ]
  = Ok [].
Proof. reflexivity. Qed.

(** C4, at the input where the code departs from the claim.  With
    [preventFullImport] left out (false) for [lib], the statement
    [import * as NS from 'lib';] is not emitted at all, and a namespace
    specifier next to a default one is lost. *)
Theorem namespace_import_dropped (require : string -> result Export) :
  visitModuleItems require
    (PluginTransformImport {[ "lib" := rule_of "lib/${member}" ]})
    [ import_from [ namespace_import "NS" ] "lib" ]
  = Ok []
  /\ visitModuleItems require
       (PluginTransformImport {[ "lib" := rule_of "lib/${member}" ]})
       [ import_from [ default_import "D"; namespace_import "NS" ] "lib" ]
     = Ok [ import_from [ default_import "D" ] "lib" ].
Proof. split; reflexivity. Qed.

(** C6, at the input where the code departs from the claim.  [constructor] is
    no key of the table [{ lib: ... }], yet [import { x } from 'constructor';]
    passes the [in] test through [Object.prototype] and is rewritten: its
    specifier becomes a default one and its source path [undefined]. *)
Theorem inherited_key_is_rewritten (require : string -> result Export) :
  PluginTransformImport {[ "lib" := rule_of "lib/${member}" ]}
    = {| own := {[ "lib" := with_defaults (rule_of "lib/${member}") ]};
         proto := None |}
  /\ visitModuleItems require
       (PluginTransformImport {[ "lib" := rule_of "lib/${member}" ]})
       [ import_from [ named "x" ] "constructor" ]
     = Ok [ Import {| decl_span := span0;
                      specifiers := [ default_import "x" ];
                      source := {| str_span := span0; str_value := VUndefined |};
                      typeOnly := false |} ].
Proof. split; reflexivity. Qed.

Section Sequence.

Variable require : string -> result Export.

(** A statement that is no import declaration is pushed as it is. *)
Lemma visitNode_statement opts type span transformedNodes :
  visitNode require opts (Statement type span) transformedNodes
  = Ok (transformedNodes ++ [Statement type span]).
Proof. reflexivity. Qed.

(** An import declaration that fails the [in] test is pushed as it is. *)
Lemma visitNode_not_candidate opts decl transformedNodes :
  has_property opts (ToString (str_value (source decl))) = false ->
  visitNode require opts (Import decl) transformedNodes
  = Ok (transformedNodes ++ [Import decl]).
Proof. intros Hin. unfold visitNode. now rewrite Hin. Qed.

(** The output around a node that is pushed as it is: the outputs of the
    nodes before it, the node, the outputs of the nodes after it; an
    exception raised before or after it is raised all the same. *)
Lemma visitNodes_pushed opts before node after :
  (forall transformedNodes,
      visitNode require opts node transformedNodes = Ok (transformedNodes ++ [node])) ->
  visitNodes require opts (before ++ node :: after) []
  = out1 ← visitNodes require opts before [];
    out2 ← visitNodes require opts after [];
    Ok (out1 ++ node :: out2).
Proof.
  intros Hpush. rewrite visitNodes_app.
  destruct (visitNodes require opts before []) as [out1|e]; simpl; [|reflexivity].
  rewrite Hpush. simpl. rewrite (visitNodes_acc _ opts after (out1 ++ [node])).
  destruct (visitNodes require opts after []) as [out2|e]; simpl; [|reflexivity].
  now rewrite <- app_assoc.
Qed.

(** C10.  An import declaration of a configured module with no specifier (a
    bare [import 'lib';]) adds nothing to the output, whatever the flags of
    its rule: the rewriter answers as if the statement were not there. *)
Theorem bare_import_removed opts decl key rule before after :
  str_value (source decl) = VString key ->
  own opts !! key = Some rule ->
  specifiers decl = [] ->
  (forall transformedNodes,
      visitNode require opts (Import decl) transformedNodes = Ok transformedNodes)
  /\ visitModuleItems require opts (before ++ Import decl :: after)
     = visitModuleItems require opts (before ++ after).
Proof.
  intros Hsrc Hkey Hnil.
  assert (Hnode : forall transformedNodes,
    visitNode require opts (Import decl) transformedNodes = Ok transformedNodes).
  { intros transformedNodes.
    rewrite (visitNode_configured _ _ _ _ _ _ Hsrc Hkey), Hnil. reflexivity. }
  split; [exact Hnode|].
  unfold visitModuleItems. rewrite (configured_not_empty _ _ _ Hkey).
  rewrite !visitNodes_app. apply bind_ext. intros out.
  cbn [visitNodes]. now rewrite Hnode.
Qed.

(** The loop body on a named specifier under a rule with [style] set. *)
Lemma visitSpecifier_style node rule specifier transformedNodes out :
  sp_type specifier = ImportSpecifier ->
  style rule = true ->
  visitSpecifier require node rule specifier transformedNodes = Ok out ->
  exists value,
    transformImportPath require (transform rule) (memberName specifier) = Ok value
    /\ out = transformedNodes
               ++ [ Import (copyNode node (newSpecifier rule specifier) value);
                    Import (styleNode node value) ].
Proof.
  intros Htype Hstyle. unfold visitSpecifier. rewrite Htype, Hstyle.
  destruct (transformImportPath _ _ _) as [value|e]; simpl; [|discriminate].
  intros [= <-]. exists value. split; [reflexivity|].
  now rewrite <- app_assoc.
Qed.

(** C8.  Under a rule whose [style] flag is set, every named specifier of a
    matching import declaration puts two neighbours into the output: its
    converted declaration and, right after it, a declaration without
    specifiers whose source path is the resolved path followed by [/style]. *)
Theorem style_import_follows opts decl key rule before after
    specifiers1 specifier specifiers2 out :
  str_value (source decl) = VString key ->
  own opts !! key = Some rule ->
  style rule = true ->
  specifiers decl = specifiers1 ++ specifier :: specifiers2 ->
  sp_type specifier = ImportSpecifier ->
  visitModuleItems require opts (before ++ Import decl :: after) = Ok out ->
  exists value out1 out2,
    transformImportPath require (transform rule) (memberName specifier) = Ok value
    /\ out = out1
               ++ Import (copyNode decl (newSpecifier rule specifier) value)
               :: Import {| decl_span := decl_span decl;
                            specifiers := [];
                            source := {| str_span := str_span (source decl);
                                         str_value := VString (ToString value +:+ "/style") |};
                            typeOnly := typeOnly decl |}
               :: out2.
Proof.
  intros Hsrc Hkey Hstyle Hspecs Htype.
  unfold visitModuleItems. rewrite (configured_not_empty _ _ _ Hkey).
  rewrite visitNodes_app. intros Hrun.
  apply bind_Ok_inv in Hrun as (outB & _ & Hrun). cbn [visitNodes] in Hrun.
  apply bind_Ok_inv in Hrun as (outD & Hdecl & Hafter).
  rewrite (visitNode_configured _ _ _ _ _ _ Hsrc Hkey) in Hdecl.
  destruct (_ && _); [discriminate|].
  rewrite Hspecs, visitSpecifiers_app in Hdecl.
  apply bind_Ok_inv in Hdecl as (out1 & _ & Hdecl). cbn [visitSpecifiers] in Hdecl.
  apply bind_Ok_inv in Hdecl as (outS & Hspec & Hrest).
  apply (visitSpecifier_style _ _ _ _ _ Htype Hstyle) in Hspec as (value & Hvalue & ->).
  rewrite visitSpecifiers_acc in Hrest.
  apply bind_Ok_inv in Hrest as (rest2 & _ & [= <-]).
  rewrite visitNodes_acc in Hafter.
  apply bind_Ok_inv in Hafter as (outA & _ & [= <-]).
  exists value, out1, (rest2 ++ outA). split; [exact Hvalue|].
  rewrite <- !app_assoc. reflexivity.
Qed.

End Sequence.

(** [import 'lib';] between two statements, under a rule for [lib]. *)
Lemma bare_import_removed_witness :
  visitModuleItems no_require
    (PluginTransformImport {[ "lib" := rule_of "lib/${member}" ]})
    ([ Statement ExpressionStatement span0 ]
       ++ import_from [] "lib" :: [ Statement VariableDeclaration span0 ])
  = Ok [ Statement ExpressionStatement span0; Statement VariableDeclaration span0 ].
Proof.
  etransitivity.
  - refine (proj2 (bare_import_removed no_require
      (PluginTransformImport {[ "lib" := rule_of "lib/${member}" ]})
      {| decl_span := span0; specifiers := [];
         source := {| str_span := span0; str_value := VString "lib" |};
         typeOnly := false |}
      "lib" (with_defaults (rule_of "lib/${member}"))
      [ Statement ExpressionStatement span0 ]
      [ Statement VariableDeclaration span0 ] _ _ _)); reflexivity.
  - reflexivity.
Defined.

(** [import { Button } from 'antd';] under [{ transform: "antd/es/${member}",
    style: true }]: [import Button from 'antd/es/Button';
    import 'antd/es/Button/style';] in that order. *)
Lemma style_import_follows_witness :
  visitModuleItems no_require
    (PluginTransformImport {[ "antd" := with_style (rule_of "antd/es/${member}") ]})
    [ import_from [ named "Button" ] "antd" ]
  = Ok [ import_from [ default_import "Button" ] "antd/es/Button";
         import_from [] "antd/es/Button/style" ]
  /\ exists value out1 out2,
       transformImportPath no_require (Some (TString "antd/es/${member}")) "Button"
         = Ok value
       /\ [ import_from [ default_import "Button" ] "antd/es/Button";
            import_from [] "antd/es/Button/style" ]
          = out1
              ++ Import (copyNode
                           {| decl_span := span0; specifiers := [ named "Button" ];
                              source := {| str_span := span0; str_value := VString "antd" |};
                              typeOnly := false |}
                           (default_import "Button") value)
              :: import_from [] (ToString value +:+ "/style")
              :: out2.
Proof.
  split; [reflexivity|].
  apply (style_import_follows no_require
    (PluginTransformImport {[ "antd" := with_style (rule_of "antd/es/${member}") ]})
    {| decl_span := span0; specifiers := [ named "Button" ];
       source := {| str_span := span0; str_value := VString "antd" |};
       typeOnly := false |}
    "antd" (with_defaults (with_style (rule_of "antd/es/${member}")))
    [] [] [] (named "Button") []
    [ import_from [ default_import "Button" ] "antd/es/Button";
      import_from [] "antd/es/Button/style" ]);
    reflexivity.
Defined.

(** ** The pattern and the replace loop *)

Lemma append_cons (c : ascii) (a b : string) :
  String c a +:+ b = String c (a +:+ b).
Proof. reflexivity. Qed.

Lemma append_nil_l (s : string) : "" +:+ s = s.
Proof. reflexivity. Qed.

Lemma append_nil_r (s : string) : s +:+ "" = s.
Proof.
  induction s as [|c s IH]; [reflexivity | now rewrite append_cons, IH].
Qed.

Lemma append_assoc (a b c : string) : (a +:+ b) +:+ c = a +:+ (b +:+ c).
Proof.
  induction a as [|x a IH]; [reflexivity | now rewrite !append_cons, IH].
Qed.

Lemma length_append (a b : string) :
  String.length (a +:+ b) = String.length a + String.length b.
Proof.
  induction a as [|x a IH]; [reflexivity|].
  rewrite append_cons. simpl. now rewrite IH.
Qed.

Lemma take_append (token tail : string) :
  take (String.length token) (token +:+ tail) = token.
Proof.
  induction token as [|c token IH]; [now destruct tail|].
  rewrite append_cons. simpl. now rewrite IH.
Qed.

Lemma drop_append (token tail : string) :
  drop (String.length token) (token +:+ tail) = tail.
Proof.
  induction token as [|c token IH]; [now destruct tail|].
  rewrite append_cons. exact IH.
Qed.

Lemma recognises_end : recognises m_end (fun token => token = "").
Proof. intros s. exists "", s. auto. Qed.

Lemma recognises_char p k L :
  recognises k L ->
  recognises (m_char p k)
    (fun token => exists c token', token = String c token'
                                   /\ char_eq_i p c = true /\ L token').
Proof.
  intros Hk [|c rest]; simpl.
  - intros token tail (c & token' & -> & _) ?. discriminate.
  - destruct (char_eq_i p c) eqn:Hc.
    + specialize (Hk rest). destruct (k rest) as [n|]; simpl.
      * destruct Hk as (token & tail & -> & <- & Htoken).
        exists (String c token), tail. eauto 10.
      * intros token tail (c' & token' & -> & _ & Htoken) [= -> ->].
        exact (Hk _ _ Htoken eq_refl).
    + intros token tail (c' & token' & -> & Hc' & _) [= -> _]. congruence.
Qed.

Lemma recognises_opt_space k L :
  recognises k L ->
  recognises (m_opt_space k)
    (fun token => L token
                  \/ exists c token', token = String c token'
                                      /\ is_space c = true /\ L token').
Proof.
  intros Hk s.
  assert (Hplain :
    match k s with
    | Some n => exists token tail,
        s = token +:+ tail /\ String.length token = n
        /\ (L token \/ exists c token', token = String c token'
                                        /\ is_space c = true /\ L token')
    | None => forall token tail, L token -> s <> token +:+ tail
    end).
  { specialize (Hk s). destruct (k s) as [n|]; [|exact Hk].
    destruct Hk as (token & tail & ? & ? & ?). exists token, tail. auto. }
  destruct s as [|c rest]; simpl.
  - destruct (k "") as [n|]; [exact Hplain|].
    intros token tail [Htoken | (c & token' & -> & _)]; [eauto | discriminate].
  - destruct (is_space c) eqn:Hc.
    + pose proof (Hk rest) as Hrest. destruct (k rest) as [n|].
      * destruct Hrest as (token & tail & -> & <- & Htoken).
        exists (String c token), tail. eauto 10.
      * destruct (k (String c rest)) as [n|]; [exact Hplain|].
        intros token tail [Htoken | (c' & token' & -> & _ & Htoken)];
          [eauto|].
        intros [= -> ->]. exact (Hrest _ _ Htoken eq_refl).
    + destruct (k (String c rest)) as [n|]; [exact Hplain|].
      intros token tail [Htoken | (c' & token' & -> & Hc' & _)]; [eauto|].
      intros [= -> _]. congruence.
Qed.

Lemma recognises_ext k (L L' : string -> Prop) :
  (forall token, L token <-> L' token) -> recognises k L -> recognises k L'.
Proof.
  intros HL Hk s. specialize (Hk s). destruct (k s) as [n|].
  - destruct Hk as (token & tail & ? & ? & ?). exists token, tail.
    rewrite <- HL. auto.
  - intros token tail Htoken. apply Hk. now apply HL.
Qed.

Lemma recognises_chars p k L :
  recognises k L ->
  recognises (m_chars p k)
    (fun token => exists word token', token = word +:+ token'
                                      /\ eq_i p word = true /\ L token').
Proof.
  intros Hk. induction p as [|c p IH]; simpl.
  - eapply recognises_ext; [|exact Hk].
    intros token. split.
    + intros Htoken. exists "", token. auto.
    + intros ([|] & token' & -> & Hword & Htoken); [exact Htoken | discriminate].
  - eapply recognises_ext; [|apply recognises_char, IH].
    intros token. split.
    + intros (x & rest & -> & Hx & word & token' & -> & Hword & Htoken).
      exists (String x word), token'. simpl. rewrite Hx, Hword. auto.
    + intros ([|x word] & token' & -> & Hword & Htoken); simpl in Hword;
        [discriminate|].
      apply andb_true_iff in Hword as [Hx Hword].
      exists x, (word +:+ token'). eauto 10.
Qed.

Lemma char_eq_i_dollar c : char_eq_i "$" c = true -> c = "$"%char.
Proof.
  destruct c as [[] [] [] [] [] [] [] []]; vm_compute; congruence.
Qed.

Lemma char_eq_i_open c : char_eq_i "{" c = true -> c = "{"%char.
Proof.
  destruct c as [[] [] [] [] [] [] [] []]; vm_compute; congruence.
Qed.

Lemma char_eq_i_close c : char_eq_i "}" c = true -> c = "}"%char.
Proof.
  destruct c as [[] [] [] [] [] [] [] []]; vm_compute; congruence.
Qed.

Lemma eq_i_open word : eq_i "${" word = true -> word = "${".
Proof.
  destruct word as [|a [|b [|]]]; cbn [eq_i]; intros H;
    repeat (apply andb_true_iff in H as [? H]); try discriminate.
  now rewrite (char_eq_i_dollar a), (char_eq_i_open b).
Qed.

Lemma eq_i_close word : eq_i "}" word = true -> word = "}".
Proof.
  destruct word as [|a [|]]; cbn [eq_i]; intros H;
    repeat (apply andb_true_iff in H as [? H]); try discriminate.
  now rewrite (char_eq_i_close a).
Qed.

(** The pattern accepts the placeholder tokens and nothing else. *)
Lemma placeholder_at_recognises : recognises placeholder_at is_placeholder.
Proof.
  eapply recognises_ext;
    [| apply recognises_chars, recognises_opt_space, recognises_chars,
         recognises_opt_space, recognises_chars, recognises_end ].
  intros token. split.
  - intros (w1 & t1 & -> & ->%eq_i_open & H1).
    assert (Hrest : forall t, 
      (exists word token', t = word +:+ token' /\ eq_i "member" word = true
         /\ ((exists w3 t3, token' = w3 +:+ t3 /\ eq_i "}" w3 = true /\ t3 = "")
             \/ exists c t2', token' = String c t2' /\ is_space c = true
                  /\ exists w3 t3, t2' = w3 +:+ t3 /\ eq_i "}" w3 = true /\ t3 = ""))
      -> exists word space2, eq_i "member" word = true /\ optional_space space2
                             /\ t = word +:+ space2 +:+ "}").
    { intros t (word & t2 & -> & Hword & [H2 | (c & t2' & -> & Hc & H2)]);
        destruct H2 as (w3 & t3 & -> & ->%eq_i_close & ->).
      - exists word, "". split; [exact Hword|]. split; [now left | reflexivity].
      - exists word, (String c ""). split; [exact Hword|].
        split; [right; eauto | reflexivity]. }
    destruct H1 as [H1 | (c & t1' & -> & Hc & H1)];
      apply Hrest in H1 as (word & space2 & Hword & Hspace2 & ->).
    + exists "", word, space2. repeat split; auto. now left.
    + exists (String c ""), word, space2. repeat split; auto. right; eauto.
  - intros (space1 & word & space2 & Hspace1 & Hword & Hspace2 & ->).
    exists "${", (space1 +:+ word +:+ space2 +:+ "}").
    split; [reflexivity|]. split; [reflexivity|].
    assert (Hrest :
      exists w t', word +:+ space2 +:+ "}" = w +:+ t' /\ eq_i "member" w = true
        /\ ((exists w3 t3, t' = w3 +:+ t3 /\ eq_i "}" w3 = true /\ t3 = "")
            \/ exists c t2', t' = String c t2' /\ is_space c = true
                 /\ exists w3 t3, t2' = w3 +:+ t3 /\ eq_i "}" w3 = true /\ t3 = "")).
    { exists word, (space2 +:+ "}"). split; [reflexivity|]. split; [exact Hword|].
      destruct Hspace2 as [-> | (c & Hc & ->)].
      - left. exists "}", "". auto.
      - right. exists c, "}". repeat split; auto. exists "}", "". auto. }
    destruct Hspace1 as [-> | (c & Hc & ->)].
    + left. exact Hrest.
    + right. exists c, (word +:+ space2 +:+ "}"). auto.
Qed.

(** A placeholder token is not empty. *)
Lemma is_placeholder_length token :
  is_placeholder token -> 0 < String.length token.
Proof.
  intros (space1 & word & space2 & _ & _ & _ & ->). simpl. lia.
Qed.

(** A member name without a dollar sign is substituted as it is. *)
Lemma GetSubstitution_plain matched before after replacement :
  has_dollar replacement = false ->
  GetSubstitution matched before after replacement = replacement.
Proof.
  induction replacement as [|c rest IH]; [reflexivity|].
  simpl has_dollar. intros [Hc Hrest]%orb_false_iff.
  specialize (IH Hrest).
  destruct c as [[] [] [] [] [] [] [] []]; try discriminate Hc;
    simpl; now rewrite IH.
Qed.

(** Passing over the rest of a match copies nothing. *)
Lemma replace_loop_skip re replacement skip :
  forall s before,
    replace_loop re replacement before s skip
    = replace_loop re replacement (before +:+ take skip s) (drop skip s) 0.
Proof.
  induction skip as [|skip IH]; intros s before.
  - destruct s; cbn [take drop]; now rewrite append_nil_r.
  - destruct s as [|c rest]; [reflexivity|].
    cbn [replace_loop take drop]. rewrite IH, append_assoc. reflexivity.
Qed.

(** The replace loop replaces every placeholder token and copies the rest. *)
Lemma replace_loop_Substituted member :
  has_dollar member = false ->
  forall len s before,
    String.length s <= len ->
    Substituted member s (replace_loop placeholder_at member before s 0).
Proof.
  intros Hmember. induction len as [|len IH]; intros s before Hlen.
  - destruct s; [constructor | simpl in Hlen; lia].
  - destruct s as [|c rest]; [constructor|].
    cbn [replace_loop].
    pose proof (placeholder_at_recognises (String c rest)) as Hre.
    destruct (placeholder_at (String c rest)) as [[|n]|].
    + destruct Hre as (token & tail & _ & Hzero & Htoken).
      apply is_placeholder_length in Htoken. lia.
    + destruct Hre as (token & tail & Heq & Hn & Htoken).
      rewrite (GetSubstitution_plain _ _ _ _ Hmember), replace_loop_skip.
      destruct token as [|c' token']; [discriminate Hn|].
      rewrite append_cons in Heq. injection Heq as -> ->.
      injection Hn as <-. rewrite drop_append.
      rewrite <- append_cons. apply Substituted_token; [exact Htoken|].
      apply IH. simpl in Hlen. rewrite length_append in Hlen. lia.
    + apply Substituted_copy; [exact Hre|].
      apply IH. simpl in Hlen. lia.
Qed.

(** A string that ends in [.js] is not empty. *)
(** The replace loop with a replacement text that always stands for
    [member]. *)
Lemma replace_loop_Substituted_as replacement member :
  (forall matched before after,
      GetSubstitution matched before after replacement = member) ->
  forall len s before,
    String.length s <= len ->
    Substituted member s (replace_loop placeholder_at replacement before s 0).
Proof.
  intros Hmember. induction len as [|len IH]; intros s before Hlen.
  - destruct s; [constructor | simpl in Hlen; lia].
  - destruct s as [|c rest]; [constructor|].
    cbn [replace_loop].
    pose proof (placeholder_at_recognises (String c rest)) as Hre.
    destruct (placeholder_at (String c rest)) as [[|n]|].
    + destruct Hre as (token & tail & _ & Hzero & Htoken).
      apply is_placeholder_length in Htoken. lia.
    + destruct Hre as (token & tail & Heq & Hn & Htoken).
      rewrite Hmember, replace_loop_skip.
      destruct token as [|c' token']; [discriminate Hn|].
      rewrite append_cons in Heq. injection Heq as -> ->.
      injection Hn as <-. rewrite drop_append.
      rewrite <- append_cons. apply Substituted_token; [exact Htoken|].
      apply IH. simpl in Hlen. rewrite length_append in Hlen. lia.
    + apply Substituted_copy; [exact Hre|].
      apply IH. simpl in Hlen. lia.
Qed.

(** A replacement text without one of the four patterns stands for itself: a
    dollar sign before any other code unit, or at the end, is a dollar
    sign. *)
Lemma GetSubstitution_no_pattern matched before after replacement :
  has_dollar_pattern replacement = false ->
  GetSubstitution matched before after replacement = replacement.
Proof.
  induction replacement as [|c rest IH]; [reflexivity|].
  cbn [has_dollar_pattern]. intros [Hc Hrest]%orb_false_iff.
  specialize (IH Hrest).
  destruct (Ascii.eqb_spec c "$") as [->|Hne].
  - destruct rest as [|d rest']; [reflexivity|].
    simpl in Hc.
    destruct d as [[] [] [] [] [] [] [] []]; try discriminate Hc;
      simpl in IH |- *; congruence.
  - destruct c as [[] [] [] [] [] [] [] []]; try (now elim Hne);
      simpl; now rewrite IH.
Qed.

Lemma isJsFile_truthy s : isJsFile s = true -> truthy s = true.
Proof. destruct s; [discriminate | reflexivity]. Qed.

Section Resolver.

Variable require : string -> result Export.

(** C7, amended.  For a template that is a string, not empty and no path of a
    [.js] file, and a member name that holds none of the patterns [$$], [$&],
    [$`] and [$'] (it may hold dollar signs otherwise), the resolver returns
    the template with every placeholder token ([${], at most one white
    space, [member] in any letter case, at most one white space, [}])
    replaced by the member name and every other code unit kept. *)
Theorem literal_template_substituted template member :
  truthy template = true ->
  isJsFile template = false ->
  has_dollar_pattern member = false ->
  exists out,
    transformImportPath require (Some (TString template)) member = Ok (VString out)
    /\ Substituted member template out.
Proof.
  intros Htruthy Hfile Hmember.
  exists (replace_member template member). split.
  - unfold transformImportPath. now rewrite Htruthy, Hfile.
  - apply (replace_loop_Substituted_as member member
             (fun matched before after =>
                GetSubstitution_no_pattern matched before after member Hmember)
             (String.length template)).
    lia.
Qed.

(** An empty template is falsy: the resolver returns [undefined]. *)
Lemma empty_template_undefined member :
  transformImportPath require (Some (TString "")) member = Ok VUndefined.
Proof. reflexivity. Qed.

(** A template that is missing is falsy as well. *)
Lemma missing_template_undefined member :
  transformImportPath require None member = Ok VUndefined.
Proof. reflexivity. Qed.

End Resolver.

(** [lib/${ Member }/x] and the member [$Grid$], an identifier with dollar
    signs that make no pattern. *)
Lemma literal_template_substituted_witness :
  exists out,
    transformImportPath no_require (Some (TString "lib/${ Member }/x")) "$Grid$"
      = Ok (VString out)
    /\ Substituted "$Grid$" "lib/${ Member }/x" out.
Proof.
  apply (literal_template_substituted no_require "lib/${ Member }/x" "$Grid$");
    reflexivity.
Defined.

(** C7, as the claim has it, fails on the empty template: it is a string, no
    function and no file path, and the resolver returns no string for it. *)
Lemma empty_template_not_substituted :
  ~ exists out,
      transformImportPath no_require (Some (TString "")) "A" = Ok (VString out)
      /\ Substituted "A" "" out.
Proof. intros (out & Hout & _). discriminate Hout. Qed.

(** No placeholder token starts where the pattern finds none. *)
Lemma no_placeholder_here s :
  placeholder_at s = None ->
  forall token tail, is_placeholder token -> s <> token +:+ tail.
Proof.
  intros Hnone. pose proof (placeholder_at_recognises s) as Hre.
  now rewrite Hnone in Hre.
Qed.

(** A member name may hold dollar signs ([$$] is an identifier), and
    [replace] reads them as substitution patterns: for the member [$$] the
    placeholder is replaced by a single dollar sign, not by the name. *)
Lemma dollar_member_not_substituted :
  Substituted "$$" "lib/${member}" "lib/$$"
  /\ transformImportPath no_require (Some (TString "lib/${member}")) "$$"
     = Ok (VString "lib/$").
Proof.
  split; [|reflexivity].
  do 4 (apply Substituted_copy; [now apply no_placeholder_here|]).
  apply (Substituted_token "$$" "${member}" "" "").
  - exists "", "member", "". repeat split; now left.
  - constructor.
Qed.

Section Callable.

Variable require : string -> result Export.

(** C9, amended.  A template that is a function is called with the member
    name and its outcome is the outcome of the resolver: the value it
    returns, or the exception it throws, as it is.  A template that is the
    path of a [.js] file is loaded: a path that fails to load and a loaded
    value that is no function each raise an exception that names the path,
    and a loaded function is called like a function template. *)
Theorem callable_template_called member :
  (forall f, transformImportPath require (Some (TFunction f)) member = f member)
  /\ (forall s,
        isJsFile s = true ->
        match require s with
        | Ok (ExportFunction f) =>
            transformImportPath require (Some (TString s)) member = f member
        | Ok ExportOther | Err _ =>
            exists e,
              transformImportPath require (Some (TString s)) member = Err e
              /\ TransformFunctionError s e
        end).
Proof.
  split; [reflexivity|].
  intros s Hfile. unfold transformImportPath.
  rewrite (isJsFile_truthy _ Hfile), Hfile. simpl.
  destruct (require s) as [[f|]|e0]; simpl.
  - reflexivity.
  - eexists. split; [reflexivity|]. now right.
  - eexists. split; [reflexivity|]. now left.
Qed.

End Callable.

(** The file [./upper.js] is loaded and its function called; the file
    [./missing.js] fails to load and the exception names it. *)
Lemma callable_template_called_witness :
  transformImportPath one_file_require (Some (TString "./upper.js")) "Row"
    = Ok (VString "lib/Row")
  /\ exists e,
       transformImportPath one_file_require (Some (TString "./missing.js")) "Row"
         = Err e
       /\ TransformFunctionError "./missing.js" e.
Proof.
  split.
  - exact (proj2 (callable_template_called one_file_require "Row")
             "./upper.js" eq_refl).
  - exact (proj2 (callable_template_called one_file_require "Row")
             "./missing.js" eq_refl).
Defined.

(** C9, as the claim has it, fails where the function itself throws: the
    exception that reaches the caller is the one thrown, which is none of the
    exceptions about a transform reference. *)
Lemma throwing_function_not_wrapped :
  transformImportPath no_require
    (Some (TFunction (fun _ => Err (Error "boom")))) "A"
  = Err (Error "boom")
  /\ forall reference, ~ TransformFunctionError reference (Error "boom").
Proof.
  split; [reflexivity|].
  intros reference [H|H]; injection H as H; discriminate H.
Qed.

(** ** What holds of the claims the code departs from *)

Section Holds.

Variable require : string -> result Export.

Lemma visitModuleItems_configured opts key rule nodes :
  own opts !! key = Some rule ->
  visitModuleItems require opts nodes = visitNodes require opts nodes [].
Proof.
  intros Hkey. unfold visitModuleItems.
  now rewrite (configured_not_empty _ _ _ Hkey).
Qed.

(** A statement that is no import, and an import whose source path fails the
    [in] test, stay as they are between the outputs of their neighbours. *)
Lemma passthrough_in_place opts before node after :
  match node with
  | Statement _ _ => True
  | Import decl => has_property opts (ToString (str_value (source decl))) = false
  end ->
  visitModuleItems require opts (before ++ node :: after)
  = out1 ← visitModuleItems require opts before;
    out2 ← visitModuleItems require opts after;
    Ok (out1 ++ node :: out2).
Proof.
  intros Hnode. unfold visitModuleItems.
  destruct (size (own opts) =? 0)%nat; [reflexivity|].
  apply visitNodes_pushed. intros transformedNodes.
  destruct node as [decl|type span]; [|reflexivity].
  now apply visitNode_not_candidate.
Qed.

(** A default specifier under [preventFullImport] stops the rewriter with the
    exception that names the module, once the statements before the
    declaration have raised nothing. *)
Lemma default_import_rejected opts decl key rule before after :
  str_value (source decl) = VString key ->
  own opts !! key = Some rule ->
  preventFullImport rule = true ->
  existsb is_default (specifiers decl) = true ->
  visitModuleItems require opts (before ++ Import decl :: after)
  = _ ← visitModuleItems require opts before; Err (FullImportNotAllowed key).
Proof.
  intros Hsrc Hkey Hflag Hdefault.
  rewrite !(visitModuleItems_configured _ _ _ _ Hkey), visitNodes_app.
  apply bind_ext. intros out. cbn [visitNodes].
  rewrite (visitNode_configured _ _ _ _ _ _ Hsrc Hkey), Hdefault, Hflag.
  reflexivity.
Qed.

(** The loop body on a default specifier: a declaration with that specifier
    alone and the source of the node. *)
Lemma default_specifier_emitted node rule specifier transformedNodes :
  sp_type specifier = ImportDefaultSpecifier ->
  visitSpecifier require node rule specifier transformedNodes
  = Ok (transformedNodes
          ++ [ Import {| decl_span := decl_span node;
                         specifiers := [ specifier ];
                         source := source node;
                         typeOnly := typeOnly node |} ]).
Proof. intros Htype. unfold visitSpecifier. now rewrite Htype. Qed.

(** A declaration of a configured module with a default specifier and
    nothing else stays as it is, [preventFullImport] being false. *)
Lemma default_only_unchanged opts decl key rule specifier before after :
  str_value (source decl) = VString key ->
  own opts !! key = Some rule ->
  preventFullImport rule = false ->
  specifiers decl = [ specifier ] ->
  sp_type specifier = ImportDefaultSpecifier ->
  visitModuleItems require opts (before ++ Import decl :: after)
  = out1 ← visitModuleItems require opts before;
    out2 ← visitModuleItems require opts after;
    Ok (out1 ++ Import decl :: out2).
Proof.
  intros Hsrc Hkey Hflag Hspecs Htype.
  rewrite !(visitModuleItems_configured _ _ _ _ Hkey).
  apply visitNodes_pushed. intros transformedNodes.
  rewrite (visitNode_configured _ _ _ _ _ _ Hsrc Hkey), Hflag, andb_false_r.
  rewrite Hspecs. cbn [visitSpecifiers].
  rewrite (default_specifier_emitted _ _ _ _ Htype). simpl.
  rewrite <- Hspecs. now destruct decl.
Qed.

(** The loop body on a named specifier, [style] being false: one declaration
    under the resolved path. *)
Lemma named_specifier_emitted node rule specifier transformedNodes :
  sp_type specifier = ImportSpecifier ->
  style rule = false ->
  visitSpecifier require node rule specifier transformedNodes
  = value ← transformImportPath require (transform rule) (memberName specifier);
    Ok (transformedNodes
          ++ [ Import {| decl_span := decl_span node;
                         specifiers := [ newSpecifier rule specifier ];
                         source := {| str_span := str_span (source node);
                                      str_value := value |};
                         typeOnly := typeOnly node |} ]).
Proof.
  intros Htype Hstyle. unfold visitSpecifier. rewrite Htype, Hstyle.
  now destruct (transformImportPath _ _ _).
Qed.

End Holds.

(** The member name is the imported name where there is one, the local name
    otherwise. *)
Lemma memberName_imported specifier name :
  sp_type specifier = ImportSpecifier ->
  imported specifier = Some name ->
  truthy (id_value name) = true ->
  memberName specifier = id_value name.
Proof.
  intros Htype Himported Hname.
  unfold memberName, actualImportVariable, doesImportedValueExist.
  rewrite Htype, Himported. simpl. now rewrite Hname, Hname.
Qed.

Lemma memberName_local specifier :
  imported specifier = None ->
  memberName specifier = id_value (local specifier).
Proof.
  intros Himported.
  unfold memberName, actualImportVariable, doesImportedValueExist.
  rewrite Himported. simpl.
  destruct (sp_type specifier); unfold truthy;
    destruct (String.eqb_spec (id_value (local specifier)) ""); simpl; congruence.
Qed.

(** The specifier of the new declaration: a default specifier that binds the
    local name, unless [skipDefaultConversion] is set and the specifier has
    an imported name, when it is the specifier itself. *)
Lemma newSpecifier_converted rule specifier :
  skipDefaultConversion rule = false \/ imported specifier = None ->
  newSpecifier rule specifier
  = {| sp_type := ImportDefaultSpecifier;
       sp_span := sp_span specifier;
       local := local specifier;
       imported := None;
       isTypeOnly := isTypeOnly specifier |}.
Proof.
  unfold newSpecifier, doesImportedValueExist.
  intros [-> | ->]; [reflexivity|].
  simpl. destruct (sp_type specifier); now rewrite andb_false_r.
Qed.

Lemma newSpecifier_kept rule specifier name :
  skipDefaultConversion rule = true ->
  sp_type specifier = ImportSpecifier ->
  imported specifier = Some name ->
  truthy (id_value name) = true ->
  newSpecifier rule specifier = specifier.
Proof.
  intros Hskip Htype Himported Hname.
  unfold newSpecifier, doesImportedValueExist.
  rewrite Hskip, Htype, Himported. simpl. now rewrite Hname.
Qed.

(** ** The substitution relation has one outcome *)

Lemma char_eq_i_m_not_space c : char_eq_i "m" c = true -> is_space c = false.
Proof.
  destruct c as [[] [] [] [] [] [] [] []]; vm_compute; congruence.
Qed.

Lemma eq_i_member_head word :
  eq_i "member" word = true ->
  exists a word', word = String a word' /\ is_space a = false.
Proof.
  destruct word as [|a word']; [discriminate|]. cbn [eq_i].
  intros [Ha _]%andb_true_iff. eauto using char_eq_i_m_not_space.
Qed.

Lemma eq_i_length pattern :
  forall word, eq_i pattern word = true ->
               String.length word = String.length pattern.
Proof.
  induction pattern as [|p pattern IH]; intros [|c word]; cbn [eq_i];
    try discriminate; [reflexivity|].
  intros [_ Hword]%andb_true_iff. simpl. now rewrite (IH _ Hword).
Qed.

Lemma append_inj (a a' b b' : string) :
  String.length a = String.length a' ->
  a +:+ b = a' +:+ b' -> a = a' /\ b = b'.
Proof.
  revert a'. induction a as [|x a IH]; intros [|x' a']; try discriminate.
  - auto.
  - rewrite !append_cons. intros [= Hlen] [= -> Heq].
    destruct (IH _ Hlen Heq) as [-> ->]. auto.
Qed.

(** At most one white space in front of an input that starts with none. *)
Lemma optional_space_inj space space' rest rest' a a' :
  optional_space space -> optional_space space' ->
  is_space a = false -> is_space a' = false ->
  space +:+ String a rest = space' +:+ String a' rest' ->
  space = space' /\ String a rest = String a' rest'.
Proof.
  intros [-> | (c & Hc & ->)] [-> | (c' & Hc' & ->)] Ha Ha';
    rewrite ?append_cons, ?append_nil_l.
  - auto.
  - intros [= -> _]. congruence.
  - intros [= <- _]. congruence.
  - intros [= -> -> ->]. auto.
Qed.

(** A placeholder token at the head of an input is the only one there. *)
Lemma is_placeholder_unique token token' rest rest' :
  is_placeholder token -> is_placeholder token' ->
  token +:+ rest = token' +:+ rest' ->
  token = token' /\ rest = rest'.
Proof.
  intros (s1 & w & s2 & Hs1 & Hw & Hs2 & ->)
         (s1' & w' & s2' & Hs1' & Hw' & Hs2' & ->).
  rewrite !append_assoc, !append_cons, append_nil_l. intros [= Heq].
  destruct (eq_i_member_head _ Hw) as (a & w0 & Ew & Ha).
  destruct (eq_i_member_head _ Hw') as (a' & w0' & Ew' & Ha').
  pose proof (eq_i_length _ _ Hw) as Hlen.
  pose proof (eq_i_length _ _ Hw') as Hlen'.
  assert (Hsplit : s1 = s1' /\ w +:+ s2 +:+ "}" +:+ rest = w' +:+ s2' +:+ "}" +:+ rest').
  { rewrite Ew, Ew', !append_cons in *.
    now apply optional_space_inj. }
  destruct Hsplit as [-> Heq'].
  apply append_inj in Heq' as [-> Heq']; [|congruence].
  change ("}" +:+ rest) with (String "}" rest) in Heq'.
  change ("}" +:+ rest') with (String "}" rest') in Heq'.
  apply optional_space_inj in Heq' as [-> [= ->]]; auto.
Qed.

Lemma Substituted_inv member s out :
  Substituted member s out ->
  (s = "" /\ out = "")
  \/ (exists token rest out',
         is_placeholder token /\ Substituted member rest out'
         /\ s = token +:+ rest /\ out = member +:+ out')
  \/ (exists c rest out',
         (forall token tail, is_placeholder token -> String c rest <> token +:+ tail)
         /\ Substituted member rest out'
         /\ s = String c rest /\ out = String c out').
Proof.
  intros [|token rest out' Htoken Hrest|c rest out' Hnone Hrest].
  - now left.
  - right. left. eauto 10.
  - right. right. eauto 10.
Qed.

(** The words of the specification fix the outcome: a template and a member
    name have one substituted string. *)
Lemma Substituted_functional member s out1 out2 :
  Substituted member s out1 -> Substituted member s out2 -> out1 = out2.
Proof.
  intros H1. revert out2.
  induction H1 as [|token rest out Htoken Hrest IH|c rest out Hnone Hrest IH];
    intros out2 H2;
    apply Substituted_inv in H2
      as [[E ->] | [(token' & rest' & out' & Htoken' & Hrest' & E & ->)
                  | (c' & rest' & out' & Hnone' & Hrest' & E & ->)]].
  - reflexivity.
  - apply is_placeholder_length in Htoken'.
    destruct token'; [simpl in Htoken'; lia | discriminate E].
  - discriminate E.
  - apply is_placeholder_length in Htoken.
    destruct token; [simpl in Htoken; lia | discriminate E].
  - apply (is_placeholder_unique _ _ _ _ Htoken Htoken') in E as [-> ->].
    now rewrite (IH _ Hrest').
  - exfalso. symmetry in E. exact (Hnone' _ _ Htoken E).
  - discriminate E.
  - exfalso. exact (Hnone _ _ Htoken' E).
  - injection E as -> ->. now rewrite (IH _ Hrest').
Qed.

(** ** The tests of the repository *)

(** 'should separate import declaration for named import' *)
Example test_named_import (require : string -> result Export) :
  visitModuleItems require
    (PluginTransformImport {[ "react-bootstrap" := react_bootstrap (Some false) ]})
    [ import_from [ default_import "Bootstrap"; named "Grid" ] "react-bootstrap" ]
  = Ok [ import_from [ default_import "Bootstrap" ] "react-bootstrap";
         import_from [ default_import "Grid" ] "react-bootstrap/lib/Grid" ].
Proof. reflexivity. Qed.

(** 'should preventing full import' *)
Example test_prevent_full_import (require : string -> result Export) :
  visitModuleItems require
    (PluginTransformImport {[ "react-bootstrap" := react_bootstrap (Some true) ]})
    [ import_from [ default_import "Bootstrap"; named "Row"; aliased "Grid" "MyGrid" ]
        "react-bootstrap" ]
  = Err (Error "swc-plugin-transform-imports: Import of entire module react-bootstrap not allowed due to preventFullImport setting").
Proof. reflexivity. Qed.

(** 'should preserve name spaced import' *)
Example test_other_imports_kept (require : string -> result Export) :
  visitModuleItems require
    (PluginTransformImport
       {[ "react-bootstrap" := react_bootstrap (Some false);
          "lodash" := rule_of "lodash/${member}" ]})
    [ import_from [ named "Row"; aliased "Grid" "MyGrid" ] "react-bootstrap";
      import_from [ named "merge" ] "lodash";
      import_from [ default_import "React" ] "react";
      import_from [ default_import "isEmpty" ] "lodash/isEmpty" ]
  = Ok [ import_from [ default_import "Row" ] "react-bootstrap/lib/Row";
         import_from [ default_import "MyGrid" ] "react-bootstrap/lib/Grid";
         import_from [ default_import "merge" ] "lodash/merge";
         import_from [ default_import "React" ] "react";
         import_from [ default_import "isEmpty" ] "lodash/isEmpty" ].
Proof. reflexivity. Qed.

(** 'should skip default conversion' *)
Example test_skip_default_conversion (require : string -> result Export) :
  visitModuleItems require
    (PluginTransformImport
       {[ "react-bootstrap" := with_skipDefaultConversion (react_bootstrap None) ]})
    [ import_from [ named "Row"; aliased "Grid" "MyGrid" ] "react-bootstrap" ]
  = Ok [ import_from [ default_import "Row" ] "react-bootstrap/lib/Row";
         import_from [ aliased "Grid" "MyGrid" ] "react-bootstrap/lib/Grid" ].
Proof. reflexivity. Qed.

(** 'should transform import path using function' *)
Example test_function_transform (require : string -> result Export) :
  visitModuleItems require
    (PluginTransformImport
       {[ "react-bootstrap" :=
            {| raw_transform :=
                 Some (TFunction (fun importName =>
                   Ok (VString ("react-bootstrap/lib/" +:+ toLowerCase importName))));
               raw_preventFullImport := Some false;
               raw_skipDefaultConversion := None;
               raw_style := None |} ]})
    [ import_from [ named "Row"; aliased "Grid" "MyGrid" ] "react-bootstrap" ]
  = Ok [ import_from [ default_import "Row" ] "react-bootstrap/lib/row";
         import_from [ default_import "MyGrid" ] "react-bootstrap/lib/grid" ].
Proof. reflexivity. Qed.

(** 'shouldn't change any import' *)
Example test_no_options (require : string -> result Export) :
  visitModuleItems require (PluginTransformImport ∅)
    [ import_from [ named "Row"; aliased "Grid" "MyGrid" ] "react-bootstrap" ]
  = Ok [ import_from [ named "Row"; aliased "Grid" "MyGrid" ] "react-bootstrap" ].
Proof. reflexivity. Qed.

(** ** The lemmas at concrete statements *)

(** [const x = 1;] between two imports of [lib] keeps its place, and so does
    an import of [react], which is no key of the table. *)
Lemma passthrough_in_place_witness :
  visitModuleItems no_require
    (PluginTransformImport {[ "lib" := rule_of "lib/${member}" ]})
    ([ import_from [ named "A" ] "lib" ]
       ++ import_from [ default_import "React" ] "react"
       :: [ Statement VariableDeclaration span0; import_from [ named "B" ] "lib" ])
  = Ok [ import_from [ default_import "A" ] "lib/A";
         import_from [ default_import "React" ] "react";
         Statement VariableDeclaration span0;
         import_from [ default_import "B" ] "lib/B" ].
Proof.
  etransitivity.
  - apply (passthrough_in_place no_require
      (PluginTransformImport {[ "lib" := rule_of "lib/${member}" ]})
      [ import_from [ named "A" ] "lib" ]
      (import_from [ default_import "React" ] "react")
      [ Statement VariableDeclaration span0; import_from [ named "B" ] "lib" ]).
    reflexivity.
  - reflexivity.
Defined.

(** [import Default, { A } from 'lib';] under [preventFullImport: true]. *)
Lemma default_import_rejected_witness :
  visitModuleItems no_require
    (PluginTransformImport
       {[ "lib" := with_preventFullImport true (rule_of "lib/${member}") ]})
    ([] ++ import_from [ default_import "Default"; named "A" ] "lib" :: [])
  = Err (FullImportNotAllowed "lib").
Proof.
  etransitivity.
  - refine (default_import_rejected no_require
      (PluginTransformImport
         {[ "lib" := with_preventFullImport true (rule_of "lib/${member}") ]})
      {| decl_span := span0;
         specifiers := [ default_import "Default"; named "A" ];
         source := {| str_span := span0; str_value := VString "lib" |};
         typeOnly := false |}
      "lib" (with_defaults (with_preventFullImport true (rule_of "lib/${member}")))
      [] [] _ _ _ _); reflexivity.
  - reflexivity.
Defined.

(** [import D from 'lib';] under a rule for [lib]. *)
Lemma default_only_unchanged_witness :
  visitModuleItems no_require
    (PluginTransformImport {[ "lib" := rule_of "lib/${member}" ]})
    ([] ++ import_from [ default_import "D" ] "lib" :: [])
  = Ok [ import_from [ default_import "D" ] "lib" ].
Proof.
  etransitivity.
  - refine (default_only_unchanged no_require
      (PluginTransformImport {[ "lib" := rule_of "lib/${member}" ]})
      {| decl_span := span0;
         specifiers := [ default_import "D" ];
         source := {| str_span := span0; str_value := VString "lib" |};
         typeOnly := false |}
      "lib" (with_defaults (rule_of "lib/${member}")) (default_import "D")
      [] [] _ _ _ _ _); reflexivity.
  - reflexivity.
Defined.

(** * Further properties of the rewriter *)

(** ** The output of a sequence is put together from the outputs of its nodes *)

Section Composition.

Variable require : string -> result Export.

Lemma visitNodes_cons opts node nodes :
  visitNodes require opts (node :: nodes) []
  = out1 ← visitNode require opts node [];
    out2 ← visitNodes require opts nodes [];
    Ok (out1 ++ out2).
Proof.
  cbn [visitNodes].
  destruct (visitNode require opts node []) as [out1|e]; simpl; [|reflexivity].
  apply (visitNodes_acc require opts nodes out1).
Qed.

Lemma visitSpecifiers_cons node rule specifier todo :
  visitSpecifiers require node rule (specifier :: todo) []
  = out1 ← visitSpecifier require node rule specifier [];
    out2 ← visitSpecifiers require node rule todo [];
    Ok (out1 ++ out2).
Proof.
  cbn [visitSpecifiers].
  destruct (visitSpecifier require node rule specifier []) as [out1|e];
    simpl; [|reflexivity].
  apply (visitSpecifiers_acc require node rule todo out1).
Qed.

(** Rewriting is local to a statement: the output of two sequences put end to
    end is the output of the first followed by the output of the second, and
    an exception of the first comes before one of the second. *)
Theorem rewrite_distributes opts nodes1 nodes2 :
  visitModuleItems require opts (nodes1 ++ nodes2)
  = out1 ← visitModuleItems require opts nodes1;
    out2 ← visitModuleItems require opts nodes2;
    Ok (out1 ++ out2).
Proof.
  unfold visitModuleItems.
  destruct (size (own opts) =? 0)%nat; [reflexivity|].
  rewrite visitNodes_app.
  destruct (visitNodes require opts nodes1 []) as [out1|e]; simpl; [|reflexivity].
  apply (visitNodes_acc require opts nodes2 out1).
Qed.

(** The loop body on a specifier adds import declarations only. *)
Lemma visitSpecifier_imports node rule specifier out :
  visitSpecifier require node rule specifier [] = Ok out ->
  List.filter is_statement out = [].
Proof.
  unfold visitSpecifier. destruct (sp_type specifier); simpl.
  - destruct (transformImportPath _ _ _) as [value|e]; simpl; [|discriminate].
    destruct (style rule); intros [= <-]; reflexivity.
  - intros [= <-]. reflexivity.
  - intros [= <-]. reflexivity.
Qed.

Lemma visitSpecifiers_imports node rule todo :
  forall out,
    visitSpecifiers require node rule todo [] = Ok out ->
    List.filter is_statement out = [].
Proof.
  induction todo as [|specifier todo IH]; intros out.
  - intros [= <-]. reflexivity.
  - rewrite visitSpecifiers_cons. intros Hrun.
    apply bind_Ok_inv in Hrun as (out1 & H1 & Hrun).
    apply bind_Ok_inv in Hrun as (out2 & H2 & [= <-]).
    rewrite List.filter_app, (visitSpecifier_imports _ _ _ _ H1), (IH _ H2).
    reflexivity.
Qed.

Lemma visitNode_statements opts node out :
  visitNode require opts node [] = Ok out ->
  List.filter is_statement out = List.filter is_statement [node].
Proof.
  destruct node as [decl|type span]; [|intros [= <-]; reflexivity].
  unfold visitNode. destruct (has_property opts _); simpl.
  - destruct (_ && _); [discriminate|]. apply visitSpecifiers_imports.
  - intros [= <-]. reflexivity.
Qed.

(** The statements that are no import declarations come out as they went in:
    none is added, dropped, changed or moved past another. *)
Theorem statements_preserved opts nodes out :
  visitModuleItems require opts nodes = Ok out ->
  List.filter is_statement out = List.filter is_statement nodes.
Proof.
  unfold visitModuleItems.
  destruct (size (own opts) =? 0)%nat; [now intros [= <-]|].
  revert out. induction nodes as [|node nodes IH]; intros out.
  - intros [= <-]. reflexivity.
  - rewrite visitNodes_cons. intros Hrun.
    apply bind_Ok_inv in Hrun as (out1 & H1 & Hrun).
    apply bind_Ok_inv in Hrun as (out2 & H2 & [= <-]).
    rewrite List.filter_app, (visitNode_statements _ _ _ H1), (IH _ H2).
    now rewrite <- List.filter_app.
Qed.

End Composition.

(** ** What a declaration of a configured module turns into *)

Section Declarations.

Variable require : string -> result Export.

(** The statements the loop body adds for one specifier. *)
Lemma visitSpecifier_out node rule specifier out :
  visitSpecifier require node rule specifier [] = Ok out ->
  match sp_type specifier with
  | ImportSpecifier =>
      exists value,
        transformImportPath require (transform rule) (memberName specifier) = Ok value
        /\ out = Import (copyNode node (newSpecifier rule specifier) value)
                   :: (if style rule then [ Import (styleNode node value) ] else [])
  | ImportDefaultSpecifier => out = [ Import (nameImportsFilteredNode node specifier) ]
  | ImportNamespaceSpecifier => out = []
  end.
Proof.
  unfold visitSpecifier. destruct (sp_type specifier); simpl.
  - destruct (transformImportPath _ _ _) as [value|e]; simpl; [|discriminate].
    intros Hout. exists value. split; [reflexivity|].
    destruct (style rule); now injection Hout as <-.
  - now intros [= <-].
  - now intros [= <-].
Qed.

Lemma newSpecifier_local rule specifier :
  local (newSpecifier rule specifier) = local specifier.
Proof. unfold newSpecifier. now destruct (_ && _). Qed.

(** The run of a declaration of a configured module, on its own. *)
Lemma visitModuleItems_declaration opts decl key rule out :
  str_value (source decl) = VString key ->
  own opts !! key = Some rule ->
  visitModuleItems require opts [ Import decl ] = Ok out ->
  visitSpecifiers require decl rule (specifiers decl) [] = Ok out.
Proof.
  intros Hsrc Hkey. unfold visitModuleItems.
  rewrite (configured_not_empty _ _ _ Hkey). cbn [visitNodes].
  rewrite (visitNode_configured _ _ _ _ _ _ Hsrc Hkey).
  destruct (_ && _); [discriminate|].
  now destruct (visitSpecifiers _ _ _ _ _).
Qed.

Lemma visitSpecifiers_names node rule todo :
  forall out,
    visitSpecifiers require node rule todo [] = Ok out ->
    flat_map local_names out
    = map (fun specifier => id_value (local specifier))
        (List.filter (fun specifier => negb (is_namespace specifier)) todo).
Proof.
  induction todo as [|specifier todo IH]; intros out.
  - now intros [= <-].
  - rewrite visitSpecifiers_cons. intros Hrun.
    apply bind_Ok_inv in Hrun as (out1 & H1 & Hrun).
    apply bind_Ok_inv in Hrun as (out2 & H2 & [= <-]).
    rewrite flat_map_app, (IH _ H2). apply visitSpecifier_out in H1.
    cbn [List.filter].
    replace (is_namespace specifier)
      with (match sp_type specifier with
            | ImportNamespaceSpecifier => true
            | _ => false
            end) by reflexivity.
    destruct (sp_type specifier).
    + destruct H1 as (value & _ & ->).
      destruct (style rule); simpl; now rewrite newSpecifier_local.
    + now rewrite H1.
    + now rewrite H1.
Qed.

Lemma filter_all {A : Type} (f : A -> bool) (l : list A) :
  existsb (fun a => negb (f a)) l = false -> List.filter f l = l.
Proof.
  induction l as [|a l IH]; [reflexivity|]. simpl.
  intros [Ha Hl]%orb_false_iff. apply negb_false_iff in Ha.
  now rewrite Ha, (IH Hl).
Qed.

Lemma visitNode_names opts node out :
  match node with
  | Import decl =>
      has_property opts (ToString (str_value (source decl))) = true ->
      existsb is_namespace (specifiers decl) = false
  | Statement _ _ => True
  end ->
  visitNode require opts node [] = Ok out ->
  flat_map local_names out = local_names node.
Proof.
  destruct node as [decl|type span]; [|now intros _ [= <-]].
  intros Hfree. unfold visitNode.
  destruct (has_property opts _); simpl;
    [|intros [= <-]; simpl; apply app_nil_r].
  destruct (_ && _); [discriminate|]. intros Hrun.
  rewrite (visitSpecifiers_names _ _ _ _ Hrun), filter_all; [reflexivity|].
  rewrite <- (Hfree eq_refl). clear. induction (specifiers decl) as [|s l IH];
    [reflexivity|]. simpl. now rewrite negb_involutive, IH.
Qed.

(** Where no declaration that is taken for rewriting has a namespace
    specifier, the output binds the names the input binds, in the same
    order. *)
Theorem bindings_preserved opts nodes out :
  (forall decl,
      In (Import decl) nodes ->
      has_property opts (ToString (str_value (source decl))) = true ->
      existsb is_namespace (specifiers decl) = false) ->
  visitModuleItems require opts nodes = Ok out ->
  flat_map local_names out = flat_map local_names nodes.
Proof.
  unfold visitModuleItems.
  destruct (size (own opts) =? 0)%nat; [now intros _ [= <-]|].
  revert out. induction nodes as [|node nodes IH]; intros out Hfree.
  - now intros [= <-].
  - rewrite visitNodes_cons. intros Hrun.
    apply bind_Ok_inv in Hrun as (out1 & H1 & Hrun).
    apply bind_Ok_inv in Hrun as (out2 & H2 & [= <-]).
    rewrite flat_map_app. cbn [flat_map]. f_equal.
    + apply (visitNode_names opts node out1); [|exact H1].
      destruct node as [decl|]; [|exact I]. apply Hfree. now left.
    + apply IH; [|exact H2]. intros decl Hin. apply Hfree. now right.
Qed.

(** Every statement put out for a declaration of a configured module is an
    import declaration with one specifier at most, at the place in the file
    and with the [typeOnly] mark of the declaration it stands for. *)
Theorem emitted_one_specifier opts decl key rule out :
  str_value (source decl) = VString key ->
  own opts !! key = Some rule ->
  visitModuleItems require opts [ Import decl ] = Ok out ->
  Forall (fun item =>
            exists emitted,
              item = Import emitted
              /\ length (specifiers emitted) <= 1
              /\ decl_span emitted = decl_span decl
              /\ str_span (source emitted) = str_span (source decl)
              /\ typeOnly emitted = typeOnly decl) out.
Proof.
  intros Hsrc Hkey Hrun.
  apply (visitModuleItems_declaration _ _ _ _ _ Hsrc Hkey) in Hrun.
  revert out Hrun.
  induction (specifiers decl) as [|specifier todo IH]; intros out.
  - intros [= <-]. constructor.
  - rewrite visitSpecifiers_cons. intros Hrun.
    apply bind_Ok_inv in Hrun as (out1 & H1 & Hrun).
    apply bind_Ok_inv in Hrun as (out2 & H2 & [= <-]).
    apply Forall_app. split; [|exact (IH _ H2)].
    apply visitSpecifier_out in H1. destruct (sp_type specifier).
    + destruct H1 as (value & _ & ->).
      constructor; [eexists; split; [reflexivity|]; simpl; auto|].
      destruct (style rule); constructor; [|constructor].
      eexists; split; [reflexivity|]; simpl; auto.
    + rewrite H1. constructor; [|constructor].
      eexists; split; [reflexivity|]; simpl; auto.
    + rewrite H1. constructor.
Qed.

(** The number of statements put out for a declaration of a configured
    module: one for every named specifier, two where [style] is set, one for
    every default specifier, none for a namespace specifier. *)
Theorem emitted_count opts decl key rule out :
  str_value (source decl) = VString key ->
  own opts !! key = Some rule ->
  visitModuleItems require opts [ Import decl ] = Ok out ->
  length out
  = (if style rule then 2 else 1) * length (List.filter is_named (specifiers decl))
    + length (List.filter is_default (specifiers decl)).
Proof.
  intros Hsrc Hkey Hrun.
  apply (visitModuleItems_declaration _ _ _ _ _ Hsrc Hkey) in Hrun.
  revert out Hrun.
  induction (specifiers decl) as [|specifier todo IH]; intros out.
  - intros [= <-]. simpl. lia.
  - rewrite visitSpecifiers_cons. intros Hrun.
    apply bind_Ok_inv in Hrun as (out1 & H1 & Hrun).
    apply bind_Ok_inv in Hrun as (out2 & H2 & [= <-]).
    rewrite length_app, (IH _ H2). apply visitSpecifier_out in H1.
    cbn [List.filter].
    replace (is_named specifier)
      with (match sp_type specifier with ImportSpecifier => true | _ => false end)
      by reflexivity.
    replace (is_default specifier)
      with (match sp_type specifier with ImportDefaultSpecifier => true | _ => false end)
      by reflexivity.
    destruct (sp_type specifier).
    + destruct H1 as (value & _ & ->). destruct (style rule); simpl; lia.
    + rewrite H1. simpl. lia.
    + rewrite H1. simpl. lia.
Qed.

End Declarations.

(** ** Tables whose transforms are templates *)

Section Templates.

Variable require : string -> result Export.

(** A literal transform is resolved without the loader and without an
    exception. *)
Lemma literal_resolves transformOption importName :
  literal transformOption = true ->
  transformImportPath require transformOption importName
  = Ok (literal_value transformOption importName).
Proof.
  destruct transformOption as [[s|f]|]; simpl; [|discriminate|reflexivity].
  intros Hfile%negb_true_iff. destruct (truthy s); simpl; [|reflexivity].
  now rewrite Hfile.
Qed.

Lemma visitSpecifier_literal node rule specifier :
  literal (transform rule) = true ->
  visitSpecifier require node rule specifier []
  = Ok (statements_of node rule specifier).
Proof.
  intros Hliteral. unfold visitSpecifier, statements_of.
  destruct (sp_type specifier); [|reflexivity|reflexivity].
  rewrite (literal_resolves _ _ Hliteral). simpl. now destruct (style rule).
Qed.

Lemma visitSpecifiers_literal node rule todo :
  literal (transform rule) = true ->
  visitSpecifiers require node rule todo []
  = Ok (flat_map (statements_of node rule) todo).
Proof.
  intros Hliteral. induction todo as [|specifier todo IH]; [reflexivity|].
  rewrite visitSpecifiers_cons, (visitSpecifier_literal _ _ _ Hliteral), IH.
  reflexivity.
Qed.

(** Under a rule with a literal transform, a declaration that is not refused
    turns into the statements of its specifiers, one specifier after the
    other. *)
Lemma declaration_statements opts decl key rule :
  str_value (source decl) = VString key ->
  own opts !! key = Some rule ->
  literal (transform rule) = true ->
  existsb is_default (specifiers decl) && preventFullImport rule = false ->
  visitModuleItems require opts [ Import decl ]
  = Ok (flat_map (statements_of decl rule) (specifiers decl)).
Proof.
  intros Hsrc Hkey Hliteral Hallowed. unfold visitModuleItems.
  rewrite (configured_not_empty _ _ _ Hkey). cbn [visitNodes].
  rewrite (visitNode_configured _ _ _ _ _ _ Hsrc Hkey), Hallowed.
  now rewrite (visitSpecifiers_literal _ _ _ Hliteral).
Qed.

(** Every rule the [in] test can lead to has a literal transform, once the
    rules of the table have. *)
Lemma get_rule_literal opts key :
  (forall module rule, own opts !! module = Some rule -> literal (transform rule) = true) ->
  from_option (fun rule => literal (transform rule)) true (proto opts) = true ->
  literal (transform (get_rule opts key)) = true.
Proof.
  intros Hown Hproto. unfold get_rule.
  destruct (own opts !! key) as [rule|] eqn:Hkey; [eauto|].
  destruct (String.eqb key "__proto__"); [|reflexivity].
  now destruct (proto opts).
Qed.

(** With literal transforms throughout, the one exception the rewriter can
    raise is the refusal of a full import: it names the module of a
    declaration of the input that has a default specifier and whose rule sets
    [preventFullImport]. *)
Theorem only_full_import_error opts nodes e :
  (forall module rule, own opts !! module = Some rule -> literal (transform rule) = true) ->
  from_option (fun rule => literal (transform rule)) true (proto opts) = true ->
  visitModuleItems require opts nodes = Err e ->
  exists decl,
    In (Import decl) nodes
    /\ existsb is_default (specifiers decl) = true
    /\ preventFullImport (get_rule opts (ToString (str_value (source decl)))) = true
    /\ e = FullImportNotAllowed (ToString (str_value (source decl))).
Proof.
  intros Hown Hproto. unfold visitModuleItems.
  destruct (size (own opts) =? 0)%nat; [discriminate|].
  induction nodes as [|node nodes IH]; [discriminate|].
  rewrite visitNodes_cons.
  destruct (visitNode require opts node []) as [out1|e1] eqn:Hnode; simpl.
  - destruct (visitNodes require opts nodes []) as [out2|e2]; simpl;
      [discriminate|].
    intros [= ->]. destruct (IH eq_refl) as (decl & Hin & Hrest).
    exists decl. split; [now right | exact Hrest].
  - intros [= ->]. destruct node as [decl|type span]; [|discriminate].
    exists decl. split; [now left|].
    unfold visitNode in Hnode.
    destruct (has_property opts _); simpl in Hnode; [|discriminate].
    destruct (existsb is_default (specifiers decl)) eqn:Hdefault;
      destruct (preventFullImport (get_rule opts _)) eqn:Hflag; simpl in Hnode.
    1: { injection Hnode as <-. auto. }
    all: now rewrite visitSpecifiers_literal in Hnode
           by (apply get_rule_literal; assumption).
Qed.

End Templates.

(** ** The flags of a rule *)

(** A flag left out of a rule and a flag written as [false] make the same
    rewriter. *)
Theorem omitted_flags_are_false (raw : gmap string RawSubOpts) :
  PluginTransformImport (spelled_out <$> raw) = PluginTransformImport raw.
Proof.
  unfold PluginTransformImport. f_equal.
  - rewrite <- fmap_delete, <- map_fmap_compose.
    apply map_fmap_ext. intros key rule _. reflexivity.
  - rewrite lookup_fmap. now destruct (raw !! "__proto__").
Qed.

Section SkipFlag.

Variable require : string -> result Export.

Lemma has_property_without_skip opts key :
  has_property (all_without_skip opts) key = has_property opts key.
Proof.
  unfold has_property, all_without_skip. simpl. rewrite lookup_fmap.
  replace (bool_decide (is_Some (without_skip <$> own opts !! key)))
    with (bool_decide (is_Some (own opts !! key)))
    by (apply bool_decide_ext; now rewrite fmap_is_Some).
  now destruct (proto opts).
Qed.

Lemma get_rule_without_skip opts key :
  get_rule (all_without_skip opts) key = without_skip (get_rule opts key).
Proof.
  unfold get_rule, all_without_skip. simpl. rewrite lookup_fmap.
  destruct (own opts !! key); simpl; [reflexivity|].
  destruct (String.eqb key "__proto__"); [|reflexivity].
  now destruct (proto opts).
Qed.

Lemma visitSpecifiers_without_skip node rule todo :
  (forall specifier, In specifier todo -> imported specifier = None) ->
  forall transformedNodes,
    visitSpecifiers require node (without_skip rule) todo transformedNodes
    = visitSpecifiers require node rule todo transformedNodes.
Proof.
  induction todo as [|specifier todo IH]; intros Hplain transformedNodes;
    [reflexivity|].
  cbn [visitSpecifiers].
  assert (Hbody : forall nodes,
    visitSpecifier require node (without_skip rule) specifier nodes
    = visitSpecifier require node rule specifier nodes).
  { intros nodes. unfold visitSpecifier. simpl.
    rewrite !newSpecifier_converted by (right; apply Hplain; now left).
    reflexivity. }
  rewrite Hbody. apply bind_ext. intros out.
  apply IH. intros s Hin. apply Hplain. now right.
Qed.

(** [skipDefaultConversion] bears on specifiers written with [as] only: for
    statements without such a specifier, the rewriter with the flag cleared
    in every rule answers as the rewriter itself. *)
Theorem skip_flag_needs_alias opts nodes :
  (forall decl specifier,
      In (Import decl) nodes -> In specifier (specifiers decl) ->
      imported specifier = None) ->
  visitModuleItems require (all_without_skip opts) nodes
  = visitModuleItems require opts nodes.
Proof.
  intros Hplain. unfold visitModuleItems.
  replace (size (own (all_without_skip opts))) with (size (own opts))
    by (symmetry; apply map_size_fmap).
  destruct (size (own opts) =? 0)%nat; [reflexivity|].
  generalize (@nil ModuleItem) as transformedNodes.
  induction nodes as [|node nodes IH]; intros transformedNodes; [reflexivity|].
  cbn [visitNodes].
  assert (Hnode :
    visitNode require (all_without_skip opts) node transformedNodes
    = visitNode require opts node transformedNodes).
  { destruct node as [decl|type span]; [|reflexivity].
    unfold visitNode.
    rewrite has_property_without_skip, get_rule_without_skip.
    destruct (has_property opts _); simpl; [|reflexivity].
    destruct (_ && _); [reflexivity|].
    apply visitSpecifiers_without_skip.
    intros specifier Hin. apply (Hplain decl); [now left | exact Hin]. }
  rewrite Hnode. apply bind_ext. intros out.
  apply IH. intros decl specifier Hin. apply Hplain. now right.
Qed.

End SkipFlag.

(** ** Further properties of the resolver *)

Lemma char_eq_i_dollar_false c :
  Ascii.eqb c "$" = false -> char_eq_i "$" c = false.
Proof.
  intros Hc. destruct (char_eq_i "$" c) eqn:Hi; [|reflexivity].
  apply char_eq_i_dollar in Hi. subst c. discriminate Hc.
Qed.

(** The pattern matches at a dollar sign only. *)
Lemma placeholder_at_other c rest :
  Ascii.eqb c "$" = false -> placeholder_at (String c rest) = None.
Proof.
  intros Hc. unfold placeholder_at. cbn [m_chars m_char].
  now rewrite (char_eq_i_dollar_false _ Hc).
Qed.

(** The replace loop copies a stretch without a dollar sign. *)
Lemma replace_loop_prefix replacement prefix rest :
  has_dollar prefix = false ->
  forall before,
    replace_loop placeholder_at replacement before (prefix +:+ rest) 0
    = prefix +:+ replace_loop placeholder_at replacement (before +:+ prefix) rest 0.
Proof.
  induction prefix as [|c prefix IH]; intros Hplain before.
  - now rewrite append_nil_r.
  - cbn [has_dollar] in Hplain. apply orb_false_iff in Hplain as [Hc Hplain].
    rewrite !append_cons. cbn [replace_loop].
    rewrite (placeholder_at_other _ _ Hc), (IH Hplain), append_assoc.
    reflexivity.
Qed.

Lemma replace_loop_end re replacement before skip :
  replace_loop re replacement before "" skip = "".
Proof. reflexivity. Qed.

Lemma replace_loop_plain replacement s before :
  has_dollar s = false ->
  replace_loop placeholder_at replacement before s 0 = s.
Proof.
  intros Hplain.
  rewrite <- (append_nil_r s) at 1.
  rewrite (replace_loop_prefix _ _ _ Hplain), replace_loop_end.
  apply append_nil_r.
Qed.

Lemma has_dollar_or_brace_append a b :
  has_dollar_or_brace (a +:+ b) = has_dollar_or_brace a || has_dollar_or_brace b.
Proof.
  induction a as [|c a IH]; [reflexivity|].
  rewrite append_cons. cbn [has_dollar_or_brace]. rewrite IH.
  now rewrite !orb_assoc.
Qed.

Lemma is_placeholder_head token :
  is_placeholder token -> exists rest, token = String "$" rest.
Proof. intros (s1 & w & s2 & _ & _ & _ & ->). eexists. reflexivity. Qed.

Lemma truthy_append_cons a c b : truthy (a +:+ String c b) = true.
Proof. now destruct a. Qed.

Section MoreResolver.

Variable require : string -> result Export.

(** A template without a dollar sign has no placeholder: every member name is
    resolved to the template itself. *)
Theorem template_without_dollar_constant template member :
  truthy template = true ->
  isJsFile template = false ->
  has_dollar template = false ->
  transformImportPath require (Some (TString template)) member
  = Ok (VString template).
Proof.
  intros Htruthy Hfile Hplain. unfold transformImportPath.
  rewrite Htruthy, Hfile. simpl. unfold replace_member.
  now rewrite (replace_loop_plain _ _ _ Hplain).
Qed.

(** The usual template, one placeholder token between two stretches without
    a dollar sign: a member name without a dollar sign is resolved to the
    first stretch, the name, the second stretch. *)
Theorem single_placeholder_template prefix token suffix member :
  is_placeholder token ->
  has_dollar prefix = false ->
  has_dollar suffix = false ->
  has_dollar member = false ->
  transformImportPath require (Some (TString (prefix +:+ token +:+ suffix))) member
  = Ok (VString (prefix +:+ member +:+ suffix)).
Proof.
  intros Htoken Hprefix Hsuffix Hmember.
  destruct (is_placeholder_head _ Htoken) as (token' & ->).
  unfold transformImportPath.
  rewrite append_cons, truthy_append_cons. simpl negb. cbv iota.
  assert (Hfile : isJsFile (prefix +:+ String "$" (token' +:+ suffix)) = false).
  { unfold isJsFile. rewrite has_dollar_or_brace_append. cbn [has_dollar_or_brace].
    simpl. now rewrite orb_true_r, andb_false_r. }
  rewrite Hfile. do 2 f_equal. unfold replace_member.
  rewrite (replace_loop_prefix _ _ _ Hprefix). f_equal.
  cbn [replace_loop].
  pose proof (placeholder_at_recognises (String "$" (token' +:+ suffix))) as Hre.
  destruct (placeholder_at (String "$" (token' +:+ suffix))) as [n|].
  - destruct Hre as (token2 & tail2 & Heq & Hn & Htoken2).
    rewrite <- append_cons in Heq.
    apply (is_placeholder_unique _ _ _ _ Htoken Htoken2) in Heq as [<- <-].
    simpl in Hn. subst n.
    rewrite (GetSubstitution_plain _ _ _ _ Hmember), replace_loop_skip.
    rewrite drop_append. f_equal.
    apply (replace_loop_plain _ _ _ Hsuffix).
  - exfalso. apply (Hre _ suffix Htoken). now rewrite append_cons.
Qed.

End MoreResolver.

(** In a replacement text with every dollar sign doubled, the pairs are the
    only patterns, and each stands for one dollar sign. *)
Lemma GetSubstitution_escaped matched before after s :
  GetSubstitution matched before after (escape_dollars s) = s.
Proof.
  induction s as [|c s IH]; [reflexivity|].
  cbn [escape_dollars]. destruct (Ascii.eqb_spec c "$") as [->|Hc].
  - cbn [GetSubstitution]. now rewrite IH.
  - destruct c as [[] [] [] [] [] [] [] []]; try (now elim Hc);
      simpl; now rewrite IH.
Qed.

(** [String.prototype.replace] reads a doubled dollar sign in the member name
    as one dollar sign: a name given with every dollar sign doubled is
    substituted as the name with single dollar signs, whatever else it
    holds. *)
Theorem doubled_dollars_come_out_single (require : string -> result Export)
    template member :
  truthy template = true ->
  isJsFile template = false ->
  exists out,
    transformImportPath require (Some (TString template)) (escape_dollars member)
      = Ok (VString out)
    /\ Substituted member template out.
Proof.
  intros Htruthy Hfile.
  exists (replace_member template (escape_dollars member)). split.
  - unfold transformImportPath. now rewrite Htruthy, Hfile.
  - apply (replace_loop_Substituted_as (escape_dollars member) member
             (fun matched before after => GetSubstitution_escaped matched before after member)
             (String.length template)).
    lia.
Qed.

(** ** The test for the path of a [.js] file *)








(** ** The further properties at concrete statements *)

(** A rule of the table the constructor builds is a rule of its argument
    with the defaults filled in. *)
Lemma constructor_lookup (raw : gmap string RawSubOpts) module rule :
  own (PluginTransformImport raw) !! module = Some rule ->
  exists written, raw !! module = Some written /\ rule = with_defaults written.
Proof.
  unfold PluginTransformImport. simpl.
  intros (written & <- & Hwritten)%lookup_fmap_Some.
  apply lookup_delete_Some in Hwritten as [_ Hwritten]. eauto.
Qed.

Lemma lib_table_literal module rule :
  own lib_table !! module = Some rule -> literal (transform rule) = true.
Proof.
  intros (written & Hwritten & ->)%constructor_lookup.
  apply lookup_singleton_Some in Hwritten as [_ <-]. reflexivity.
Qed.

(** [const x = 1;] before and after an import of [lib]. *)
Lemma statements_preserved_witness :
  List.filter is_statement
    (Statement VariableDeclaration span0 :: lib_output
       ++ [ Statement ExpressionStatement span0 ])
  = List.filter is_statement
      [ Statement VariableDeclaration span0; Import lib_declaration;
        Statement ExpressionStatement span0 ].
Proof.
  apply (statements_preserved no_require lib_table). reflexivity.
Defined.

(** An import of [lib] next to [import * as R from 'react';], which is not
    taken for rewriting. *)
Lemma bindings_preserved_witness :
  flat_map local_names (lib_output ++ [ import_from [ namespace_import "R" ] "react" ])
  = flat_map local_names
      [ Import lib_declaration; import_from [ namespace_import "R" ] "react" ].
Proof.
  apply (bindings_preserved no_require lib_table); [|reflexivity].
  intros decl [[= <-] | [[= <-] | []]]; [reflexivity | discriminate].
Defined.

Lemma emitted_one_specifier_witness :
  Forall (fun item =>
            exists emitted,
              item = Import emitted
              /\ length (specifiers emitted) <= 1
              /\ decl_span emitted = decl_span lib_declaration
              /\ str_span (source emitted) = str_span (source lib_declaration)
              /\ typeOnly emitted = typeOnly lib_declaration) lib_output.
Proof.
  apply (emitted_one_specifier no_require lib_table lib_declaration "lib" lib_rule);
    reflexivity.
Defined.

Lemma emitted_count_witness :
  length lib_output
  = (if style lib_rule then 2 else 1)
      * length (List.filter is_named (specifiers lib_declaration))
    + length (List.filter is_default (specifiers lib_declaration)).
Proof.
  apply (emitted_count no_require lib_table lib_declaration "lib" lib_rule);
    reflexivity.
Defined.

(** [import D from 'lib';] after an import of [lib] that is let through. *)
Lemma only_full_import_error_witness :
  exists decl,
    In (Import decl) [ Import lib_declaration; import_from [ default_import "D" ] "lib" ]
    /\ existsb is_default (specifiers decl) = true
    /\ preventFullImport (get_rule lib_table (ToString (str_value (source decl)))) = true
    /\ FullImportNotAllowed "lib"
       = FullImportNotAllowed (ToString (str_value (source decl))).
Proof.
  apply (only_full_import_error no_require lib_table
           [ Import lib_declaration; import_from [ default_import "D" ] "lib" ]
           (FullImportNotAllowed "lib") lib_table_literal);
    reflexivity.
Defined.

(** [import { A, B } from 'lib';] under [skipDefaultConversion]. *)
Lemma skip_flag_needs_alias_witness :
  visitModuleItems no_require
    (all_without_skip
       (PluginTransformImport
          {[ "lib" := with_skipDefaultConversion (rule_of "lib/${member}") ]}))
    [ import_from [ named "A"; named "B" ] "lib" ]
  = visitModuleItems no_require
      (PluginTransformImport
         {[ "lib" := with_skipDefaultConversion (rule_of "lib/${member}") ]})
      [ import_from [ named "A"; named "B" ] "lib" ].
Proof.
  apply (skip_flag_needs_alias no_require).
  intros decl specifier [[= <-] | []] [<- | [<- | []]]; reflexivity.
Defined.

(** [lodash-es] for every member. *)
Lemma template_without_dollar_constant_witness :
  transformImportPath no_require (Some (TString "lodash-es")) "merge"
  = Ok (VString "lodash-es").
Proof.
  apply (template_without_dollar_constant no_require "lodash-es" "merge");
    reflexivity.
Defined.

(** [antd/es/${ Member }/index] and the member [Button]. *)
Lemma single_placeholder_template_witness :
  transformImportPath no_require
    (Some (TString ("antd/es/" +:+ "${ Member }" +:+ "/index"))) "Button"
  = Ok (VString ("antd/es/" +:+ "Button" +:+ "/index")).
Proof.
  apply (single_placeholder_template no_require "antd/es/" "${ Member }" "/index" "Button");
    try reflexivity.
  exists " ", "Member", " ". repeat split; right; exists " "%char; auto.
Defined.

(** The identifier [a$b], given as [a$$b]. *)
Lemma doubled_dollars_come_out_single_witness :
  exists out,
    transformImportPath no_require (Some (TString "lib/${member}")) (escape_dollars "a$b")
      = Ok (VString out)
    /\ Substituted "a$b" "lib/${member}" out.
Proof.
  apply (doubled_dollars_come_out_single no_require "lib/${member}" "a$b");
    reflexivity.
Defined.

(** ** Named imports, one declaration each *)

Lemma isJsFile_with_placeholder prefix token suffix :
  is_placeholder token -> isJsFile (prefix +:+ token +:+ suffix) = false.
Proof.
  intros (token' & ->)%is_placeholder_head.
  unfold isJsFile. rewrite has_dollar_or_brace_append, append_cons.
  cbn [has_dollar_or_brace]. simpl. now rewrite orb_true_r, andb_false_r.
Qed.

(** One placeholder token between two stretches without a dollar sign: the
    token is replaced and the stretches are copied. *)
Lemma replace_member_single prefix token suffix member :
  is_placeholder token ->
  has_dollar prefix = false ->
  has_dollar suffix = false ->
  has_dollar_pattern member = false ->
  replace_member (prefix +:+ token +:+ suffix) member
  = prefix +:+ member +:+ suffix.
Proof.
  intros Htoken Hprefix Hsuffix Hmember. unfold replace_member.
  rewrite (replace_loop_prefix _ _ _ Hprefix). f_equal.
  destruct (is_placeholder_head _ Htoken) as (token' & ->).
  rewrite append_cons. cbn [replace_loop].
  pose proof (placeholder_at_recognises (String "$" (token' +:+ suffix))) as Hre.
  destruct (placeholder_at (String "$" (token' +:+ suffix))) as [n|].
  - destruct Hre as (token2 & tail2 & Heq & Hn & Htoken2).
    rewrite <- append_cons in Heq.
    apply (is_placeholder_unique _ _ _ _ Htoken Htoken2) in Heq as [<- <-].
    simpl in Hn. subst n.
    rewrite (GetSubstitution_no_pattern _ _ _ _ Hmember), replace_loop_skip.
    rewrite drop_append. f_equal.
    apply (replace_loop_plain _ _ _ Hsuffix).
  - exfalso. apply (Hre _ suffix Htoken). now rewrite append_cons.
Qed.

Section NamedImports.

Variable require : string -> result Export.

(** Under a rule whose transform is one placeholder token between a prefix
    and a suffix, with [skipDefaultConversion] and [style] off, a declaration
    of named specifiers turns into one declaration for each specifier, in
    their order: a default specifier that binds the local name, from the
    path made of the prefix, the imported name (the local name where there is
    no alias) and the suffix, at the place and with the [typeOnly] mark of
    the declaration. *)
Theorem named_imports_split opts decl key rule prefix token suffix :
  str_value (source decl) = VString key ->
  own opts !! key = Some rule ->
  transform rule = Some (TString (prefix +:+ token +:+ suffix)) ->
  is_placeholder token ->
  has_dollar prefix = false ->
  has_dollar suffix = false ->
  skipDefaultConversion rule = false ->
  style rule = false ->
  Forall (fun specifier =>
            sp_type specifier = ImportSpecifier
            /\ has_dollar_pattern (imported_or_local specifier) = false
            /\ forall name, imported specifier = Some name ->
                            truthy (id_value name) = true)
         (specifiers decl) ->
  visitModuleItems require opts [ Import decl ]
  = Ok (map (fun specifier =>
               Import
                 {| decl_span := decl_span decl;
                    specifiers :=
                      [ {| sp_type := ImportDefaultSpecifier;
                           sp_span := sp_span specifier;
                           local := local specifier;
                           imported := None;
                           isTypeOnly := isTypeOnly specifier |} ];
                    source :=
                      {| str_span := str_span (source decl);
                         str_value :=
                           VString (prefix +:+ imported_or_local specifier +:+ suffix) |};
                    typeOnly := typeOnly decl |})
            (specifiers decl)).
Proof.
  intros Hsrc Hkey Htransform Htoken Hprefix Hsuffix Hskip Hstyle Hnamed.
  assert (Hdefault : existsb is_default (specifiers decl) = false).
  { clear - Hnamed. induction Hnamed as [|specifier todo (Htype & _) _ IH];
      [reflexivity|].
    simpl. unfold is_default at 1. now rewrite Htype. }
  rewrite (declaration_statements require opts decl key rule Hsrc Hkey).
  - f_equal. clear Hdefault.
    induction Hnamed as [|specifier todo (Htype & Hname & Htruthy) _ IH];
      [reflexivity|].
    cbn [flat_map map]. rewrite IH. unfold statements_of at 1.
    rewrite Htype, Hstyle, Htransform.
    rewrite newSpecifier_converted by now left.
    assert (Hmember : memberName specifier = imported_or_local specifier).
    { unfold imported_or_local.
      destruct (imported specifier) as [name|] eqn:Himported.
      - now apply memberName_imported; auto.
      - now apply memberName_local. }
    rewrite Hmember. unfold literal_value.
    destruct (is_placeholder_head _ Htoken) as (token' & Etoken).
    replace (truthy (prefix +:+ token +:+ suffix)) with true
      by (rewrite Etoken, append_cons; symmetry; apply truthy_append_cons).
    now rewrite (replace_member_single _ _ _ _ Htoken Hprefix Hsuffix Hname).
  - rewrite Htransform. simpl.
    now rewrite (isJsFile_with_placeholder _ _ _ Htoken).
  - now rewrite Hdefault.
Qed.

End NamedImports.

(** [import { A, B as C } from 'lib';] under [{ transform: "lib/${member}" }]. *)
Lemma named_imports_split_witness :
  visitModuleItems no_require
    (PluginTransformImport {[ "lib" := rule_of "lib/${member}" ]})
    [ import_from [ named "A"; aliased "B" "C" ] "lib" ]
  = Ok [ import_from [ default_import "A" ] ("lib/" +:+ "A" +:+ "");
         import_from [ default_import "C" ] ("lib/" +:+ "B" +:+ "") ].
Proof.
  apply (named_imports_split no_require
    (PluginTransformImport {[ "lib" := rule_of "lib/${member}" ]})
    {| decl_span := span0; specifiers := [ named "A"; aliased "B" "C" ];
       source := {| str_span := span0; str_value := VString "lib" |};
       typeOnly := false |}
    "lib" (with_defaults (rule_of "lib/${member}")) "lib/" "${member}" "");
    try reflexivity.
  - exists "", "member", "". repeat split; now left.
  - repeat constructor; intros name [= <-]; reflexivity.
Defined.
